(** * The workflow runner of Flowbit orchestrator ([run_flow.py])

    A shallow embedding of the runner: the values the script handles
    (decoded JSON documents), the Python primitives it applies to them,
    the prompt resolver [extract_prompt], the loader [load_workflow], the
    generation client [run_ollama], the ledger [append_execution_log] and
    the orchestrating [main], followed by the properties proved of them.

    Conventions.
    - A Python [str] is a [string]: a sequence of 8-bit characters read as
      the code points U+0000 to U+00FF.
    - A Python [dict] is an association list in insertion order; a dict
      never holds a key twice, and lookups take the first binding.
    - A Python [float] is carried by its [repr] (for instance ["1.5"]): the
      script only tests floats for truth, prints them and passes them on.
    - An exception is a value of [exn]; a computation that may raise
      returns a [result].
    - The writes to the diagnostic files under [LOGS_DIR] (lines 9-34 and
      every [write_debug_log] or [log.write]) and to standard error are
      taken to succeed and are not part of the state.
    - [json], [requests], [datetime] and [uuid4] are library code: the
      runner is stated over them, as section variables and as the fields
      of [env]. *)

From Stdlib Require Import ZArith String Ascii List DecimalString Bool Lia.
From stdpp Require Import base gmap strings list.

Local Open Scope Z_scope.
Set Warnings "-register-all".

(** ** Python values *)

Inductive pyval : Type :=
| PNone
| PBool (b : bool)
| PInt (z : Z)
| PFloat (repr : string)
| PStr (s : string)
| PList (items : list pyval)
| PDict (fields : list (string * pyval)).

(** Exceptions, by class.  [KeyError] carries the missing key,
    [AttributeError] the type name and the attribute, the others their
    message. *)
Inductive exn : Type :=
| ValueError (msg : string)
| TypeError (msg : string)
| AttributeError (ty attr : string)
| KeyError (key : string)
| FileNotFoundError (path : string)
| JSONDecodeError (msg : string)
| PyException (msg : string).

Inductive result (A : Type) : Type :=
| Ok (a : A)
| Raise (e : exn).
Arguments Ok {A} a.
Arguments Raise {A} e.

Definition rbind {A B : Type} (r : result A) (k : A -> result B) : result B :=
  match r with
  | Ok a => k a
  | Raise e => Raise e
  end.

Declare Scope result_scope.
Delimit Scope result_scope with result.
Notation "'perform' x <- r ; k" := (rbind r (fun x => k))
  (at level 10, x name, r at level 100, k at level 200) : result_scope.
Local Open Scope result_scope.

(** *** Strings *)

(** [needle in hay]. *)
Fixpoint str_contains (needle hay : string) : bool :=
  String.prefix needle hay ||
  match hay with
  | EmptyString => false
  | String _ hay' => str_contains needle hay'
  end.

(** [hay.startswith(p)]. *)
Definition str_startswith (hay p : string) : bool := String.prefix p hay.

(** [hay.endswith(p)]. *)
Definition str_endswith (hay p : string) : bool :=
  let n := String.length hay in
  let k := String.length p in
  (k <=? n)%nat && String.eqb (String.substring (n - k) k hay) p.

(** [s.replace(old, new)] for a non-empty [old]: the occurrences of [old]
    are found from the left and do not overlap.  [skip] counts the
    characters of a match that remain to be dropped. *)
Fixpoint replace_from (old new : string) (skip : nat) (s : string) : string :=
  match s with
  | EmptyString => EmptyString
  | String c s' =>
      match skip with
      | S k => replace_from old new k s'
      | O =>
          if String.prefix old s
          then new +:+ replace_from old new (String.length old - 1) s'
          else String c (replace_from old new 0 s')
      end
  end.

(** With an empty [old], Python puts [new] before every character and at
    the end. *)
Fixpoint interleave (new s : string) : string :=
  match s with
  | EmptyString => new
  | String c s' => new +:+ String c (interleave new s')
  end.

Definition str_replace (old new s : string) : string :=
  match old with
  | EmptyString => interleave new s
  | String _ _ => replace_from old new 0 s
  end.

Fixpoint str_join (sep : string) (parts : list string) : string :=
  match parts with
  | [] => EmptyString
  | [p] => p
  | p :: rest => p +:+ sep +:+ str_join sep rest
  end.

(** *** [repr] and [str] *)

Definition hex_digit (n : N) : ascii :=
  match n with
  | 0%N => "0" | 1%N => "1" | 2%N => "2" | 3%N => "3" | 4%N => "4"
  | 5%N => "5" | 6%N => "6" | 7%N => "7" | 8%N => "8" | 9%N => "9"
  | 10%N => "a" | 11%N => "b" | 12%N => "c" | 13%N => "d" | 14%N => "e"
  | _ => "f"
  end%char.

Definition hex2 (c : ascii) : string :=
  let n := N_of_ascii c in
  String (hex_digit (N.div n 16)) (String (hex_digit (N.modulo n 16)) EmptyString).

(** [str.isprintable] on one character of the range U+0000 to U+00FF. *)
Definition char_printable (c : ascii) : bool :=
  let n := N_of_ascii c in
  ((32 <=? n) && (n <=? 126) || (161 <=? n) && negb (n =? 173))%N.

(** The double quote. *)
Definition dquote : ascii := "034"%char.

Definition has_char (c : ascii) (s : string) : bool :=
  existsb (Ascii.eqb c) (list_ascii_of_string s).

(** The quote [repr] puts around a string: a double quote when the string
    holds a single quote and no double quote, a single quote otherwise. *)
Definition repr_quote (s : string) : ascii :=
  if has_char "'" s && negb (has_char dquote s) then dquote else "'"%char.

Definition repr_char (quote c : ascii) : string :=
  if Ascii.eqb c quote || Ascii.eqb c "\" then String "\" (String c EmptyString)
  else if Ascii.eqb c "009" then "\t"
  else if Ascii.eqb c "010" then "\n"
  else if Ascii.eqb c "013" then "\r"
  else if char_printable c then String c EmptyString
  else "\x" +:+ hex2 c.

Fixpoint repr_chars (quote : ascii) (s : string) : string :=
  match s with
  | EmptyString => EmptyString
  | String c s' => repr_char quote c +:+ repr_chars quote s'
  end.

Definition repr_str (s : string) : string :=
  let q := repr_quote s in
  String q (repr_chars q s +:+ String q EmptyString).

Definition Z_to_string (z : Z) : string := NilZero.string_of_int (Z.to_int z).

Fixpoint py_repr (v : pyval) : string :=
  match v with
  | PNone => "None"
  | PBool true => "True"
  | PBool false => "False"
  | PInt z => Z_to_string z
  | PFloat r => r
  | PStr s => repr_str s
  | PList items => "[" +:+ str_join ", " (map py_repr items) +:+ "]"
  | PDict fields =>
      "{" +:+ str_join ", "
        (map (fun kv => repr_str (fst kv) +:+ ": " +:+ py_repr (snd kv)) fields)
      +:+ "}"
  end.

(** [str(v)]. *)
Definition py_str (v : pyval) : string :=
  match v with
  | PStr s => s
  | _ => py_repr v
  end.

(** [type(v).__name__]. *)
Definition type_name (v : pyval) : string :=
  match v with
  | PNone => "NoneType"
  | PBool _ => "bool"
  | PInt _ => "int"
  | PFloat _ => "float"
  | PStr _ => "str"
  | PList _ => "list"
  | PDict _ => "dict"
  end.

(** Truth value of [v] in a condition. *)
Definition truthy (v : pyval) : bool :=
  match v with
  | PNone => false
  | PBool b => b
  | PInt z => negb (z =? 0)
  | PFloat r => negb (String.eqb r "0.0" || String.eqb r "-0.0")
  | PStr s => negb (String.eqb s "")
  | PList items => match items with [] => false | _ => true end
  | PDict fields => match fields with [] => false | _ => true end
  end.

(** [a or b], with [b] evaluated only when [a] is false. *)
Definition py_or (a : pyval) (b : result pyval) : result pyval :=
  if truthy a then Ok a else b.

(** *** Dictionaries *)

Fixpoint dict_lookup (k : string) (fields : list (string * pyval)) : option pyval :=
  match fields with
  | [] => None
  | (k', v) :: rest => if String.eqb k k' then Some v else dict_lookup k rest
  end.

Definition dict_has (k : string) (fields : list (string * pyval)) : bool :=
  match dict_lookup k fields with Some _ => true | None => false end.

(** [v == s] for a string literal [s]. *)
Definition eq_str (v : pyval) (s : string) : bool :=
  match v with
  | PStr s' => String.eqb s' s
  | _ => false
  end.

(** [v.get(k, default)]: only a dict has the method. *)
Definition py_get (v : pyval) (k : string) (default : pyval) : result pyval :=
  match v with
  | PDict fields =>
      match dict_lookup k fields with
      | Some x => Ok x
      | None => Ok default
      end
  | _ => Raise (AttributeError (type_name v) "get")
  end.

(** [v[k]] for a string key [k]. *)
Definition py_getitem (v : pyval) (k : string) : result pyval :=
  match v with
  | PDict fields =>
      match dict_lookup k fields with
      | Some x => Ok x
      | None => Raise (KeyError k)
      end
  | PStr _ => Raise (TypeError "string indices must be integers, not 'str'")
  | PList _ => Raise (TypeError "list indices must be integers or slices, not str")
  | _ => Raise (TypeError ("'" +:+ type_name v +:+ "' object is not subscriptable"))
  end.

(** [k in v] for a string key [k]: key membership in a dict, substring
    test in a string, element test in a list; the other types are not
    containers. *)
Definition py_contains (k : string) (v : pyval) : result bool :=
  match v with
  | PDict fields => Ok (dict_has k fields)
  | PStr s => Ok (str_contains k s)
  | PList items => Ok (existsb (fun x => eq_str x k) items)
  | _ => Raise (TypeError ("argument of type '" +:+ type_name v +:+ "' is not iterable"))
  end.

(** [s.replace(old, new)] on a value: only a string has the method. *)
Definition py_replace (v : pyval) (old new : string) : result pyval :=
  match v with
  | PStr s => Ok (PStr (str_replace old new s))
  | _ => Raise (AttributeError (type_name v) "replace")
  end.

(** [str(e)] for an exception [e]. *)
Definition exn_str (e : exn) : string :=
  match e with
  | ValueError msg | TypeError msg | JSONDecodeError msg | PyException msg => msg
  | AttributeError ty attr =>
      "'" +:+ ty +:+ "' object has no attribute '" +:+ attr +:+ "'"
  | KeyError key => repr_str key
  | FileNotFoundError path =>
      "[Errno 2] No such file or directory: " +:+ repr_str path
  end.

(** ** The prompt resolver: [extract_prompt] *)

(** Lines 115-118 and 152-155: the placeholder loop.  With a dict payload
    every pair, in iteration order, rewrites the working string; any other
    payload leaves the template alone. *)
Fixpoint substitute_items (items : list (string * pyval)) (processed : pyval)
  : result pyval :=
  match items with
  | [] => Ok processed
  | (key, value) :: rest =>
      let placeholder := "{" +:+ key +:+ "}" in
      perform processed' <- py_replace processed placeholder (py_str value);
      substitute_items rest processed'
  end.

Definition substitute (template input_data : pyval) : result pyval :=
  match input_data with
  | PDict items => substitute_items items template
  | _ => Ok template
  end.

(** Line 111: the test of the first loop on a dict node. *)
Definition is_input_node (fields : list (string * pyval)) : result bool :=
  match dict_lookup "type" fields with
  | Some ty =>
      if eq_str ty "InputNode" then
        match dict_lookup "data" fields with
        | Some data => py_contains "input" data
        | None => Ok false
        end
      else Ok false
  | None => Ok false
  end.

(** Lines 108-119: the first loop.  [None] when the loop ends without
    returning. *)
Fixpoint scan_input_node (nodes : list pyval) (input_data : pyval)
  : result (option pyval) :=
  match nodes with
  | [] => Ok None
  | node :: rest =>
      match node with
      | PDict fields =>
          perform hit <- is_input_node fields;
          if hit then
            perform data <- py_getitem node "data";
            perform template <- py_getitem data "input";
            perform processed <- substitute template input_data;
            Ok (Some processed)
          else scan_input_node rest input_data
      | _ => scan_input_node rest input_data
      end
  end.

(** Lines 125-126 and 135-136: [node.get(k) or node.get('data', {}).get(k)]. *)
Definition node_attr (node : pyval) (k : string) : result pyval :=
  perform top <- py_get node k PNone;
  py_or top (perform data <- py_get node "data" (PDict []); py_get data k PNone).

(** Lines 127 and 137: the test on the identifier and the type. *)
Definition tag_matches (tag : string) (node_id node_type : pyval) : bool :=
  (truthy node_id && str_startswith (py_str node_id) tag)
  || (truthy node_type && str_contains tag (py_str node_type)).

(** Lines 125-127 and 135-137: the body of both loops on one node, its
    identifier and whether the node matches. *)
Definition node_matches (tag : string) (node : pyval) : result (pyval * bool) :=
  perform node_id <- node_attr node "id";
  perform node_type <- node_attr node "type";
  Ok (node_id, tag_matches tag node_id node_type).

(** Lines 123-130: the identifier of the first ChatInput node, [None]
    when the loop ends without a match. *)
Fixpoint find_chat_input (nodes : list pyval) : result pyval :=
  match nodes with
  | [] => Ok PNone
  | node :: rest =>
      perform m <- node_matches "ChatInput" node;
      if snd m then Ok (fst m) else find_chat_input rest
  end.

(** Lines 133-139: the first Prompt node, [None] without a match. *)
Fixpoint find_prompt_node (nodes : list pyval) : result pyval :=
  match nodes with
  | [] => Ok PNone
  | node :: rest =>
      perform m <- node_matches "Prompt" node;
      if snd m then Ok node else find_prompt_node rest
  end.

(** Lines 144-148: the template of the Prompt node, read at
    [data.node.template.value]; any exception on that path sends the code
    to [data.template.value], read with [get]. *)
Definition prompt_template (prompt_node : pyval) : result pyval :=
  let nested :=
    perform data <- py_getitem prompt_node "data";
    perform inner <- py_getitem data "node";
    perform template <- py_getitem inner "template";
    py_getitem template "value" in
  match nested with
  | Ok template => Ok template
  | Raise _ =>
      perform data <- py_get prompt_node "data" (PDict []);
      perform template <- py_get data "template" (PDict []);
      py_get template "value" PNone
  end.

Definition no_node_error : exn :=
  ValueError "Input node with expected structure not found in flow nodes.".

Definition invalid_flow_error : exn :=
  ValueError "Invalid flow structure passed to extract_prompt: Missing or invalid 'nodes' key.".

(** Lines 121-162: the second strategy and the final error. *)
Definition langflow_prompt (nodes : list pyval) (input_data : pyval)
  : result pyval :=
  perform chat_input_id <- find_chat_input nodes;
  if truthy chat_input_id then
    perform prompt_node <- find_prompt_node nodes;
    if truthy prompt_node then
      perform template <- prompt_template prompt_node;
      if truthy template then substitute template input_data
      else Raise no_node_error
    else Raise no_node_error
  else Raise no_node_error.

Definition extract_prompt (flow input_data : pyval) : result pyval :=
  match flow with
  | PDict fields =>
      match dict_lookup "nodes" fields with
      | Some (PList nodes) =>
          perform found <- scan_input_node nodes input_data;
          match found with
          | Some processed => Ok processed
          | None => langflow_prompt nodes input_data
          end
      | _ => Raise invalid_flow_error
      end
  | _ => Raise invalid_flow_error
  end.

(** ** The loader: the schema analysis of [load_workflow] *)

Definition dict_keys (fields : list (string * pyval)) : pyval :=
  PList (map (fun kv => PStr (fst kv)) fields).

Definition is_list (v : pyval) : bool :=
  match v with PList _ => true | _ => false end.

(** Lines 43-84, on the decoded document. *)
Definition normalize_workflow (flow : pyval) : result pyval :=
  let no_format :=
    ValueError "Workflow must be a dictionary containing 'data.nodes'/'data.edges' or root level 'nodes'/'edges' as lists." in
  match flow with
  | PDict fields =>
      match dict_lookup "data" fields with
      | Some (PDict data) =>
          match dict_lookup "nodes" data, dict_lookup "edges" data with
          | Some nodes, Some edges =>
              if is_list nodes && is_list edges
              then Ok (PDict [("nodes", nodes); ("edges", edges)])
              else Raise (ValueError
                ("Workflow data has nodes/edges but they are not lists. Nodes type: "
                 +:+ type_name nodes +:+ ", Edges type: " +:+ type_name edges))
          | _, _ =>
              Raise (ValueError
                ("Workflow data missing required keys ('nodes' or 'edges') under 'data'. Found keys: "
                 +:+ py_repr (dict_keys data)))
          end
      | Some other =>
          Raise (ValueError
            ("Workflow has 'data' key, but its content is not a dictionary. Type: "
             +:+ type_name other))
      | None =>
          match dict_lookup "nodes" fields, dict_lookup "edges" fields with
          | Some nodes, Some edges =>
              if is_list nodes && is_list edges
              then Ok flow
              else Raise (ValueError
                ("Workflow has root level nodes/edges but they are not lists. Nodes type: "
                 +:+ type_name nodes +:+ ", Edges type: " +:+ type_name edges))
          | _, _ => Raise no_format
          end
      end
  | _ => Raise no_format
  end.

(** ** The workflow name (line 260) *)

(** [os.path.basename]: what follows the last slash. *)
Fixpoint basename (p : string) : string :=
  match p with
  | EmptyString => EmptyString
  | String _ p' => if has_char "/" p then basename p' else p
  end.

Definition flow_name (flow_path : string) : string :=
  str_replace ".json" "" (basename flow_path).

(** ** The command line (lines 229 and 241) *)

Definition in_chars (chars : string) (c : ascii) : bool := has_char c chars.

Fixpoint str_lstrip (chars s : string) : string :=
  match s with
  | EmptyString => EmptyString
  | String c s' => if in_chars chars c then str_lstrip chars s' else s
  end.

Fixpoint str_rstrip (chars s : string) : string :=
  match s with
  | EmptyString => EmptyString
  | String c s' =>
      match str_rstrip chars s' with
      | EmptyString => if in_chars chars c then EmptyString else String c EmptyString
      | kept => String c kept
      end
  end.

(** [s.strip(chars)]. *)
Definition str_strip (chars s : string) : string :=
  str_rstrip chars (str_lstrip chars s).

(** ** The world of one run *)

(** A request issued with [requests.post(url, json=data, timeout=...)]. *)
Record request : Type := {
  req_url : string;
  req_json : pyval;
  req_timeout : Z
}.

(** What [requests.post] gives back: a response, with its status code,
    its text and what its [json()] method yields (the decoded body, or
    the text of the decoding error), or a transport failure, an exception
    of the class [RequestException] with its text. *)
Inductive http_result : Type :=
| Responded (status_code : Z) (text : string) (json : pyval + string)
| TransportFailure (msg : string).

(** What the script reads from its surroundings. *)
Record env : Type := {
  ollama_host : option string;        (* os.getenv('OLLAMA_HOST') *)
  backend : request -> http_result;   (* the generation backend *)
  uuid4 : string;                     (* str(uuid4()) *)
  clock : nat -> Z;                   (* the n-th reading of the clock, in microseconds *)
  python_version : string;            (* sys.version *)
  current_directory : string;         (* os.getcwd() *)
  directory_contents : list string    (* os.listdir(".") *)
}.

(** What the script changes: the text files, the lines printed on
    standard output, the requests sent, the number of clock readings.
    The diagnostic files under [LOGS_DIR] and standard error are left
    out: nothing the script computes is read back from them. *)
Record world : Type := {
  files : gmap string string;
  stdout : list string;
  sent : list request;
  ticks : nat
}.

Definition set_files (fs : gmap string string) (w : world) : world :=
  {| files := fs; stdout := stdout w; sent := sent w; ticks := ticks w |}.

(** The end of a statement: a value, an exception, or [sys.exit(code)],
    which no [except Exception] clause stops. *)
Inductive outcome (A : Type) : Type :=
| Returned (a : A)
| Threw (e : exn)
| Exited (code : Z).
Arguments Returned {A} a.
Arguments Threw {A} e.
Arguments Exited {A} code.

Definition prog (A : Type) : Type := world -> outcome A * world.

Definition ret {A : Type} (a : A) : prog A := fun w => (Returned a, w).

Definition bind {A B : Type} (p : prog A) (k : A -> prog B) : prog B :=
  fun w =>
    match p w with
    | (Returned a, w') => k a w'
    | (Threw e, w') => (Threw e, w')
    | (Exited c, w') => (Exited c, w')
    end.

Declare Scope prog_scope.
Delimit Scope prog_scope with prog.
Notation "'run' x <- p ; k" := (bind p (fun x => k))
  (at level 10, x name, p at level 100, k at level 200) : prog_scope.
Notation "p ;; k" := (bind p (fun _ => k))
  (at level 100, k at level 200, right associativity) : prog_scope.

(** [try: p except Exception as e: h e]. *)
Definition try_except {A : Type} (p : prog A) (h : exn -> prog A) : prog A :=
  fun w =>
    match p w with
    | (Threw e, w') => h e w'
    | other => other
    end.

Definition lift {A : Type} (r : result A) : prog A :=
  fun w => match r with Ok a => (Returned a, w) | Raise e => (Threw e, w) end.

Definition sys_exit {A : Type} (code : Z) : prog A := fun w => (Exited code, w).

Definition print (line : string) : prog unit :=
  fun w =>
    (Returned tt,
     {| files := files w; stdout := stdout w ++ [line]; sent := sent w; ticks := ticks w |}).

(** [datetime.now(timezone.utc)]: the next reading of the clock. *)
Definition now (e : env) : prog Z :=
  fun w =>
    (Returned (clock e (ticks w)),
     {| files := files w; stdout := stdout w; sent := sent w; ticks := S (ticks w) |}).

Definition post (e : env) (r : request) : prog http_result :=
  fun w =>
    (Returned (backend e r),
     {| files := files w; stdout := stdout w; sent := sent w ++ [r]; ticks := ticks w |}).

Definition get_files : prog (gmap string string) := fun w => (Returned (files w), w).

Definition put_file (path text : string) : prog unit :=
  fun w => (Returned tt, set_files (<[path := text]> (files w)) w).

(** ** The runner, over the library functions it calls *)

Section Runner.

Local Open Scope prog_scope.

(** [json.load] / [json.loads]: the decoded document, [None] for a
    text that is not JSON ([JSONDecodeError]). *)
Variable json_loads : string -> option pyval.
(** The text of the [JSONDecodeError] raised on a document. *)
Variable json_error : string -> string.
(** [json.dumps(v, indent=...)]. *)
Variable json_dumps : option nat -> pyval -> string.
(** [t.isoformat()] for a clock reading [t]. *)
Variable isoformat : Z -> string.
(** [d.total_seconds()] for a difference of clock readings: a float. *)
Variable total_seconds : Z -> string.

(** [json.load(open(path))]. *)
Definition read_json (fs : gmap string string) (path : string) : result pyval :=
  match fs !! path with
  | None => Raise (FileNotFoundError path)
  | Some text =>
      match json_loads text with
      | Some v => Ok v
      | None => Raise (JSONDecodeError (json_error text))
      end
  end.

(** Lines 36-94.  The handlers log and raise again. *)
Definition load_workflow (fs : gmap string string) (path : string) : result pyval :=
  perform flow <- read_json fs path;
  normalize_workflow flow.

Definition default_host : string := "http://ollama:11434".

Definition generate_request (e : env) (prompt : pyval) : request :=
  let host := match ollama_host e with Some h => h | None => default_host end in
  {| req_url := host +:+ "/api/generate";
     req_json := PDict [("model", PStr "tinyllama"); ("prompt", prompt);
                        ("stream", PBool false)];
     req_timeout := 60 |}.

(** Lines 178-192: what becomes of the answer of [requests.post].  A
    failure of [response.json()] is a [RequestException] (requests 2.27
    and later) and falls to the handler; the [Exception] and the
    [AttributeError] raised in the [try] block do not. *)
Definition read_response (response : http_result) : result pyval :=
  match response with
  | Responded status_code text json =>
      if status_code =? 200 then
        match json with
        | inl body => py_get body "response" (PStr "")
        | inr msg => Raise (PyException ("Ollama connection error: " +:+ msg))
        end
      else
        Raise (PyException
          ("Ollama request failed: " +:+ Z_to_string status_code +:+ " - " +:+ text))
  | TransportFailure msg =>
      Raise (PyException ("Ollama connection error: " +:+ msg))
  end.

(** Lines 164-192. *)
Definition run_ollama (e : env) (prompt : pyval) : prog pyval :=
  run response <- post e (generate_request e prompt);
  lift (read_response response).

(** Lines 194-206. *)
Definition append_execution_log (entry : pyval) (path : string) : prog unit :=
  run fs <- get_files;
  (match fs !! path with
   | None => put_file path (json_dumps None (PList []))
   | Some _ => ret tt
   end);;
  run fs' <- get_files;
  match fs' !! path with
  | None => lift (Raise (FileNotFoundError path))
  | Some text =>
      let data := match json_loads text with Some d => d | None => PList [] end in
      match data with
      | PList rows => put_file path (json_dumps (Some 2%nat) (PList (rows ++ [entry])))
      | _ => lift (Raise (AttributeError (type_name data) "append"))
      end
  end.

Definition ledger_path : string := "executions.json".

(** Lines 304-313 and 319-328. *)
Definition execution_record (execution_id name status : string)
    (input_data output : pyval) (error : string) (start_time end_time : Z) : pyval :=
  PDict [("id", PStr execution_id); ("flow", PStr name); ("status", PStr status);
         ("input", input_data); ("output", output); ("error", PStr error);
         ("startTime", PStr (isoformat start_time));
         ("duration", PFloat (total_seconds (end_time - start_time)))].

(** Lines 239-258: the input payload, from a file or from the argument. *)
Definition load_input (input_arg_stripped : string) : prog pyval :=
  run fs <- get_files;
  let from_file :=
    match fs !! input_arg_stripped with
    | Some _ => str_endswith input_arg_stripped ".json"
    | None => false
    end in
  if from_file then
    match read_json fs input_arg_stripped with
    | Ok v => ret v
    | Raise ex =>
        print ("ERROR: Failed to load input file: " +:+ exn_str ex);;
        sys_exit 1
    end
  else
    match json_loads input_arg_stripped with
    | Some v => ret v
    | None =>
        print ("ERROR: Failed to parse input JSON: " +:+ json_error input_arg_stripped);;
        sys_exit 1
    end.

Definition node_count (flow : pyval) : result Z :=
  perform nodes <- py_getitem flow "nodes";
  match nodes with
  | PList items => Ok (Z.of_nat (List.length items))
  | PStr s => Ok (Z.of_nat (String.length s))
  | PDict fields => Ok (Z.of_nat (List.length fields))
  | _ => Raise (TypeError ("object of type '" +:+ type_name nodes +:+ "' has no len()"))
  end.

(** Lines 265-336: the execution proper and its handler. *)
Definition execute (e : env) (flow_path : string) (input_data : pyval)
    (name execution_id : string) (start_time : Z) : prog unit :=
  try_except
    (run fs <- get_files;
     run flow <- lift (load_workflow fs flow_path);
     run n <- lift (node_count flow);
     print ("DEBUG: Successfully loaded flow with " +:+ Z_to_string n +:+ " nodes");;
     run prompt <- lift (extract_prompt flow input_data);
     run output <- run_ollama e prompt;
     run end_time <- now e;
     let execution_log :=
       execution_record execution_id name "Success" input_data output ""
         start_time end_time in
     append_execution_log execution_log ledger_path;;
     print (json_dumps None execution_log))
    (fun ex =>
     run end_time <- now e;
     let error_log :=
       execution_record execution_id name "Error" input_data (PStr "") (exn_str ex)
         start_time end_time in
     print ("ERROR: " +:+ exn_str ex);;
     append_execution_log error_log ledger_path;;
     print (json_dumps None error_log);;
     sys_exit 1).

(** Lines 208-341. *)
Definition main_body (e : env) (argv : list string) : prog unit :=
  try_except
    (run started <- now e;
     let debug_info :=
       PDict [("script_started", PStr (isoformat started));
              ("sys_argv", PList (map PStr argv));
              ("python_version", PStr (python_version e));
              ("current_directory", PStr (current_directory e));
              ("directory_contents", PList (map PStr (directory_contents e)))] in
     print ("DEBUG_INFO: " +:+ json_dumps (Some 2%nat) debug_info);;
     match argv with
     | [_; flow_path; input_arg] =>
         let input_arg_stripped := str_strip (String "'" (String dquote EmptyString)) input_arg in
         let input_debug :=
           PDict [("flow_path", PStr flow_path); ("input_arg", PStr input_arg);
                  ("input_arg_type", PStr "str");
                  ("input_arg_stripped", PStr input_arg_stripped)] in
         print ("INPUT_DEBUG: " +:+ json_dumps (Some 2%nat) input_debug);;
         run input_data <- load_input input_arg_stripped;
         let name := flow_name flow_path in
         let execution_id := uuid4 e in
         run start_time <- now e;
         execute e flow_path input_data name execution_id start_time
     | _ =>
         print ("ERROR: Incorrect number of arguments. Received: "
                +:+ py_repr (PList (map PStr argv)));;
         sys_exit 1
     end)
    (fun ex =>
     print ("ERROR: Unexpected error in main: " +:+ exn_str ex);;
     sys_exit 1).

(** The process: its exit code and the world it leaves. *)
Definition main (e : env) (argv : list string) (w : world) : Z * world :=
  match main_body e argv w with
  | (Returned _, w') => (0, w')
  | (Threw _, w') => (1, w')
  | (Exited code, w') => (code, w')
  end.

(** *** Vocabulary of the statements about the runner *)

(** The codec gives back the document it has written. *)
Definition round_trips (indent : option nat) (v : pyval) : Prop :=
  json_loads (json_dumps indent v) = Some v.

(** The rows [append_execution_log] starts from: those of the array in
    the file; none when the file is missing or is not JSON; and no
    starting point when the file holds another JSON value. *)
Definition ledger_rows (fs : gmap string string) (path : string) : option (list pyval) :=
  match fs !! path with
  | None => Some []
  | Some text =>
      match json_loads text with
      | None => Some []
      | Some (PList rows) => Some rows
      | Some _ => None
      end
  end.

Definition quotes : string := String "'" (String dquote "").

(** The payload the command line stands for, when it stands for one. *)
Definition input_payload (fs : gmap string string) (input_arg : string) : option pyval :=
  let stripped := str_strip quotes input_arg in
  match fs !! stripped with
  | Some text => if str_endswith stripped ".json" then json_loads text else json_loads stripped
  | None => json_loads stripped
  end.

(** The world in which the execution proper starts. *)
Definition at_start (e : env) (program flow_path input_arg : string) (w : world) : world :=
  {| files := files w;
     stdout :=
       (stdout w ++
        ["DEBUG_INFO: " +:+
         json_dumps (Some 2%nat)
           (PDict [("script_started", PStr (isoformat (clock e (ticks w))));
                   ("sys_argv", PList (map PStr [program; flow_path; input_arg]));
                   ("python_version", PStr (python_version e));
                   ("current_directory", PStr (current_directory e));
                   ("directory_contents", PList (map PStr (directory_contents e)))])]) ++
       ["INPUT_DEBUG: " +:+
        json_dumps (Some 2%nat)
          (PDict [("flow_path", PStr flow_path); ("input_arg", PStr input_arg);
                  ("input_arg_type", PStr "str");
                  ("input_arg_stripped", PStr (str_strip quotes input_arg))])];
     sent := sent w;
     ticks := S (S (ticks w)) |}.

(** The runner once the command line has been echoed: lines 239-341 for
    a command line of two arguments, under the handler of [main]. *)
Definition after_echo (e : env) (flow_path input_arg_stripped : string) : prog unit :=
  try_except
    (run input_data <- load_input input_arg_stripped;
     let name := flow_name flow_path in
     let execution_id := uuid4 e in
     run start_time <- now e;
     execute e flow_path input_data name execution_id start_time)
    (fun ex =>
     print ("ERROR: Unexpected error in main: " +:+ exn_str ex);;
     sys_exit 1).

(** The three stages the runner guards: loading, resolution, generation. *)
Definition stages (e : env) (fs : gmap string string) (flow_path : string)
    (input_data : pyval) : result pyval :=
  perform flow <- load_workflow fs flow_path;
  perform prompt <- extract_prompt flow input_data;
  read_response (backend e (generate_request e prompt)).

End Runner.

(** ** A reference JSON codec

    An executable printer and parser for the documents of the examples:
    the printer follows [json.dumps] (separators, indentation, escapes of
    [ensure_ascii]), the parser reads the JSON grammar. *)

Module RefCodec.

Definition escape_char (c : ascii) : string :=
  if Ascii.eqb c dquote then String "\" (String dquote "")
  else if Ascii.eqb c "\" then "\\"
  else if Ascii.eqb c "010" then "\n"
  else if Ascii.eqb c "013" then "\r"
  else if Ascii.eqb c "009" then "\t"
  else if Ascii.eqb c "008" then "\b"
  else if Ascii.eqb c "012" then "\f"
  else if ((32 <=? N_of_ascii c) && (N_of_ascii c <=? 126))%N then String c EmptyString
  else "\u00" +:+ hex2 c.

Fixpoint escape (s : string) : string :=
  match s with
  | EmptyString => EmptyString
  | String c s' => escape_char c +:+ escape s'
  end.

Definition quote (s : string) : string :=
  String dquote (escape s +:+ String dquote "").

Fixpoint spaces (n : nat) : string :=
  match n with
  | O => EmptyString
  | S n' => String " " (spaces n')
  end.

(** The line break and margin put before an item at depth [level]. *)
Definition newline (indent : option nat) (level : nat) : string :=
  match indent with
  | Some n => String "010" (spaces (n * level))
  | None => EmptyString
  end.

Definition item_separator (indent : option nat) : string :=
  match indent with Some _ => "," | None => ", " end.

Definition bracket (indent : option nat) (level : nat) (opening closing : string)
    (parts : list string) : string :=
  match parts with
  | [] => opening +:+ closing
  | _ =>
      opening +:+ newline indent (S level)
      +:+ str_join (item_separator indent +:+ newline indent (S level)) parts
      +:+ newline indent level +:+ closing
  end.

Fixpoint dumps_at (indent : option nat) (level : nat) (v : pyval) : string :=
  match v with
  | PNone => "null"
  | PBool true => "true"
  | PBool false => "false"
  | PInt z => Z_to_string z
  | PFloat r => r
  | PStr s => quote s
  | PList items =>
      bracket indent level "[" "]" (map (dumps_at indent (S level)) items)
  | PDict fields =>
      bracket indent level "{" "}"
        (map (fun kv => quote (fst kv) +:+ ": " +:+ dumps_at indent (S level) (snd kv))
             fields)
  end.

Definition dumps (indent : option nat) (v : pyval) : string := dumps_at indent 0 v.

(** *** Parsing *)

Definition is_ws (c : ascii) : bool :=
  Ascii.eqb c " " || Ascii.eqb c "009" || Ascii.eqb c "010" || Ascii.eqb c "013".

Fixpoint skip_ws (s : string) : string :=
  match s with
  | String c s' => if is_ws c then skip_ws s' else s
  | EmptyString => s
  end.

Definition is_digit (c : ascii) : bool :=
  ((48 <=? N_of_ascii c) && (N_of_ascii c <=? 57))%N.

Definition hex_value (c : ascii) : option N :=
  let n := N_of_ascii c in
  if ((48 <=? n) && (n <=? 57))%N then Some (n - 48)%N
  else if ((97 <=? n) && (n <=? 102))%N then Some (n - 87)%N
  else if ((65 <=? n) && (n <=? 70))%N then Some (n - 55)%N
  else None.

Definition simple_escape (e : ascii) : option ascii :=
  if Ascii.eqb e dquote then Some dquote
  else if Ascii.eqb e "\" then Some "\"%char
  else if Ascii.eqb e "/" then Some "/"%char
  else if Ascii.eqb e "b" then Some "008"%char
  else if Ascii.eqb e "f" then Some "012"%char
  else if Ascii.eqb e "n" then Some "010"%char
  else if Ascii.eqb e "r" then Some "013"%char
  else if Ascii.eqb e "t" then Some "009"%char
  else None.

Definition hex4 (a b c d : ascii) : option N :=
  match hex_value a, hex_value b, hex_value c, hex_value d with
  | Some x, Some y, Some z, Some t => Some (((x * 16 + y) * 16 + z) * 16 + t)%N
  | _, _, _, _ => None
  end.

Definition push (c : ascii) (r : option (string * string)) : option (string * string) :=
  match r with
  | Some (text, rest) => Some (String c text, rest)
  | None => None
  end.

(** The characters of a string literal, after the opening quote: the
    text and what follows the closing quote. *)
Fixpoint parse_chars (fuel : nat) (s : string) : option (string * string) :=
  match fuel, s with
  | S fuel', String c s' =>
      if Ascii.eqb c dquote then Some (EmptyString, s')
      else if Ascii.eqb c "\" then
        match s' with
        | String "u" (String h1 (String h2 (String h3 (String h4 rest)))) =>
            match hex4 h1 h2 h3 h4 with
            | Some n =>
                if (n <? 256)%N then push (ascii_of_N n) (parse_chars fuel' rest)
                else None
            | None => None
            end
        | String e rest =>
            match simple_escape e with
            | Some d => push d (parse_chars fuel' rest)
            | None => None
            end
        | EmptyString => None
        end
      else if (N_of_ascii c <? 32)%N then None
      else push c (parse_chars fuel' s')
  | _, _ => None
  end.

Definition is_number_char (c : ascii) : bool :=
  is_digit c || Ascii.eqb c "-" || Ascii.eqb c "+" || Ascii.eqb c "."
  || Ascii.eqb c "e" || Ascii.eqb c "E".

(** The longest prefix of characters satisfying [f], and the rest. *)
Fixpoint span (f : ascii -> bool) (s : string) : string * string :=
  match s with
  | String c s' =>
      if f c then let '(a, b) := span f s' in (String c a, b) else (EmptyString, s)
  | EmptyString => (EmptyString, EmptyString)
  end.

Definition all_digits (s : string) : bool :=
  negb (String.eqb s "") && forallb is_digit (list_ascii_of_string s).

(** [0] or a run of digits that does not start with [0]. *)
Definition is_natural (s : string) : bool :=
  all_digits s && (String.eqb s "0" || negb (String.prefix "0" s)).

Definition unsigned (s : string) : string :=
  match s with
  | String "-" s' => s'
  | _ => s
  end.

Definition is_exponent (s : string) : bool :=
  match s with
  | String "+" d | String "-" d => all_digits d
  | _ => all_digits s
  end.

(** [int frac? exp?] with a fraction or an exponent. *)
Definition is_float_literal (s : string) : bool :=
  let '(whole, tail) := span is_digit (unsigned s) in
  is_natural whole &&
  match tail with
  | String "." t =>
      let '(frac, tail') := span is_digit t in
      all_digits frac &&
      match tail' with
      | EmptyString => true
      | String "e" x | String "E" x => is_exponent x
      | _ => false
      end
  | String "e" x | String "E" x => is_exponent x
  | _ => false
  end.

Definition parse_number (s : string) : option (pyval * string) :=
  let '(lit, rest) := span is_number_char s in
  if is_natural (unsigned lit) then
    match NilZero.int_of_string lit with
    | Some d => Some (PInt (Z.of_int d), rest)
    | None => None
    end
  else if is_float_literal lit then Some (PFloat lit, rest)
  else None.

(** [d[k] = v]: the value of a key already present is replaced where
    it stands. *)
Fixpoint dict_set (k : string) (v : pyval) (fields : list (string * pyval))
  : list (string * pyval) :=
  match fields with
  | [] => [(k, v)]
  | (k', v') :: rest =>
      if String.eqb k k' then (k, v) :: rest else (k', v') :: dict_set k v rest
  end.

Definition keyword (word : string) (v : pyval) (s : string) : option (pyval * string) :=
  if String.prefix word s
  then Some (v, String.substring (String.length word)
                  (String.length s - String.length word) s)
  else None.

Section Items.
Variable parse : string -> option (pyval * string).

(** Items after the opening bracket of a non-empty array. *)
Fixpoint parse_items (fuel : nat) (s : string) : option (list pyval * string) :=
  match fuel with
  | O => None
  | S fuel' =>
      match parse s with
      | Some (v, rest) =>
          match skip_ws rest with
          | String "," rest' =>
              match parse_items fuel' rest' with
              | Some (vs, rest'') => Some (v :: vs, rest'')
              | None => None
              end
          | String "]" rest' => Some ([v], rest')
          | _ => None
          end
      | None => None
      end
  end.

(** Members after the opening brace of a non-empty object. *)
Fixpoint parse_members (fuel : nat) (s : string)
  : option (list (string * pyval) * string) :=
  match fuel with
  | O => None
  | S fuel' =>
      match skip_ws s with
      | String "034" rest =>
          match parse_chars (String.length rest) rest with
          | Some (key, rest1) =>
              match skip_ws rest1 with
              | String ":" rest2 =>
                  match parse rest2 with
                  | Some (v, rest3) =>
                      match skip_ws rest3 with
                      | String "," rest4 =>
                          match parse_members fuel' rest4 with
                          | Some (kvs, rest5) => Some ((key, v) :: kvs, rest5)
                          | None => None
                          end
                      | String "}" rest4 => Some ([(key, v)], rest4)
                      | _ => None
                      end
                  | None => None
                  end
              | _ => None
              end
          | None => None
          end
      | _ => None
      end
  end.
End Items.

Definition build_dict (kvs : list (string * pyval)) : pyval :=
  PDict (fold_left (fun acc kv => dict_set (fst kv) (snd kv) acc) kvs []).

Fixpoint parse_value (fuel : nat) (s : string) : option (pyval * string) :=
  match fuel with
  | O => None
  | S fuel' =>
      match skip_ws s with
      | String "[" rest =>
          match skip_ws rest with
          | String "]" rest' => Some (PList [], rest')
          | _ =>
              match parse_items (parse_value fuel') fuel' rest with
              | Some (vs, rest') => Some (PList vs, rest')
              | None => None
              end
          end
      | String "{" rest =>
          match skip_ws rest with
          | String "}" rest' => Some (PDict [], rest')
          | _ =>
              match parse_members (parse_value fuel') fuel' rest with
              | Some (kvs, rest') => Some (build_dict kvs, rest')
              | None => None
              end
          end
      | String "034" rest =>
          match parse_chars (String.length rest) rest with
          | Some (text, rest') => Some (PStr text, rest')
          | None => None
          end
      | String "n" _ as t => keyword "null" PNone t
      | String "t" _ as t => keyword "true" (PBool true) t
      | String "f" _ as t => keyword "false" (PBool false) t
      | String "N" _ as t => keyword "NaN" (PFloat "nan") t
      | String "I" _ as t => keyword "Infinity" (PFloat "inf") t
      | t =>
          if String.prefix "-Infinity" t then keyword "-Infinity" (PFloat "-inf") t
          else parse_number t
      end
  end.

Definition loads (s : string) : option pyval :=
  match parse_value (S (String.length s)) s with
  | Some (v, rest) =>
      match skip_ws rest with
      | EmptyString => Some v
      | _ => None
      end
  | None => None
  end.

(** The text of the decoding error is not modelled. *)
Definition error_text (s : string) : string := "Expecting value".

End RefCodec.


(** ** Vocabulary of the statements *)

Definition is_dict (v : pyval) : bool :=
  match v with PDict _ => true | _ => false end.

(** The template a node offers to the first strategy: the [input] field
    of the [data] mapping of a node whose type is [InputNode]. *)
Definition direct_input (node : pyval) : option pyval :=
  match node with
  | PDict fields =>
      match dict_lookup "type" fields, dict_lookup "data" fields with
      | Some ty, Some (PDict data) =>
          if eq_str ty "InputNode" then dict_lookup "input" data else None
      | _, _ => None
      end
  | _ => None
  end.

(** The [data] of a node of type [InputNode], when present, is a mapping. *)
Definition input_data_is_mapping (node : pyval) : bool :=
  match node with
  | PDict fields =>
      match dict_lookup "type" fields, dict_lookup "data" fields with
      | Some ty, Some data => if eq_str ty "InputNode" then is_dict data else true
      | _, _ => true
      end
  | _ => true
  end.

(** A node the first strategy passes over. *)
Definition passed_over (node : pyval) : bool :=
  input_data_is_mapping node &&
  match direct_input node with Some _ => false | None => true end.

(** The [data] of a node, when present, is a mapping. *)
Definition data_is_mapping (fields : list (string * pyval)) : bool :=
  match dict_lookup "data" fields with
  | Some data => is_dict data
  | None => true
  end.

(** The identifier or type a node is known by: the top-level field when
    it is present and true, the field of [data] otherwise. *)
Definition effective (fields : list (string * pyval)) (k : string) : pyval :=
  let nested :=
    match dict_lookup "data" fields with
    | Some (PDict data) =>
        match dict_lookup k data with Some v => v | None => PNone end
    | _ => PNone
    end in
  match dict_lookup k fields with
  | Some v => if truthy v then v else nested
  | None => nested
  end.

(** A field that is a string or is missing. *)
Definition is_text (v : pyval) : bool :=
  match v with PNone | PStr _ => true | _ => false end.

(** The search for [tag] passes over the node, without an exception. *)
Definition misses (tag : string) (node : pyval) : bool :=
  match node_matches tag node with
  | Ok (_, false) => true
  | _ => false
  end.

(** [os.path.splitext(name)[0]]: the name up to its last dot, when a
    character other than a dot comes before that dot. *)
Fixpoint strip_extension_from (seen_stem : bool) (name : string) : string :=
  match name with
  | EmptyString => EmptyString
  | String c rest =>
      let is_dot := Ascii.eqb c "." in
      if is_dot && seen_stem && negb (has_char "." rest) then EmptyString
      else String c (strip_extension_from (seen_stem || negb is_dot) rest)
  end.

Definition strip_extension (name : string) : string :=
  strip_extension_from false name.

(** The [nodes] and the [edges] of a loaded workflow. *)
Definition workflow_nodes (w : pyval) : option pyval :=
  match w with PDict fields => dict_lookup "nodes" fields | _ => None end.

Definition workflow_edges (w : pyval) : option pyval :=
  match w with PDict fields => dict_lookup "edges" fields | _ => None end.

(** The node has no identifier: none at the top level and none in
    [data], or empty ones. *)
Definition no_identifier (node : pyval) : bool :=
  match node_attr node "id" with
  | Ok v => negb (truthy v)
  | Raise _ => false
  end.

(** The type of the node contains [tag]. *)
Definition type_contains (tag : string) (node : pyval) : bool :=
  match node_attr node "type" with
  | Ok v => truthy v && str_contains tag (py_str v)
  | Raise _ => false
  end.

(** [replaced old new s r]: [r] is [s] with every occurrence of [old],
    taken from the left and without overlap, replaced by [new]. *)
Inductive replaced (old new : string) : string -> string -> Prop :=
| replaced_none (s : string) :
    str_contains old s = false -> replaced old new s s
| replaced_next (a b r : string) :
    (forall p q, a +:+ old = p +:+ old +:+ q -> q = "") ->
    replaced old new b r ->
    replaced old new (a +:+ old +:+ b) (a +:+ new +:+ r).

(** [substituted items t r]: [r] is the working string [t] after one
    replacement pass per pair of [items], in order, each on the result of
    the one before. *)
Inductive substituted : list (string * pyval) -> string -> string -> Prop :=
| substituted_nil (t : string) : substituted [] t t
| substituted_cons (key : string) (value : pyval) (rest : list (string * pyval))
    (t t1 t2 : string) :
    replaced ("{" +:+ key +:+ "}") (py_str value) t t1 ->
    substituted rest t1 t2 ->
    substituted ((key, value) :: rest) t t2.

(** ** Example documents *)

Definition nodes_of (nodes : list pyval) : list (string * pyval) :=
  [("nodes", PList nodes); ("edges", PList [])].

Definition input_node (template : string) : pyval :=
  PDict [("id", PStr "in-1"); ("type", PStr "InputNode");
         ("data", PDict [("input", PStr template)])].

Definition chat_input_node : pyval :=
  PDict [("id", PStr "ChatInput-a1b2"); ("data", PDict [("type", PStr "ChatInput")])].

(** A Prompt node in the LangFlow 1.4 layout. *)
Definition prompt_node (template : string) : pyval :=
  PDict [("id", PStr "Prompt-c3d4");
         ("data", PDict [("type", PStr "Prompt");
                         ("node", PDict [("template",
                                          PDict [("value", PStr template)])])])].

Definition greeting_flow : pyval :=
  PDict (nodes_of [input_node "Hello {name}, you are {age}"]).

Definition ada : pyval := PDict [("name", PStr "Ada"); ("age", PInt 30)].

(** A workflow with a ChatInput/Prompt pair before an [InputNode]. *)
Definition both_strategies : list pyval :=
  [chat_input_node; prompt_node "Summarise {name}";
   input_node "Hello {name}, you are {age}"].

(** An [InputNode] with an empty template before a ChatInput/Prompt pair. *)
Definition empty_input_first : list pyval :=
  [input_node ""; chat_input_node; prompt_node "Summarise {name}"].

(** A node whose identifier holds the tag in the middle. *)
Definition tag_in_the_middle : pyval :=
  PDict [("id", PStr "node-ChatInput-1"); ("type", PStr "genericNode")].

(** A node whose top-level identifier hides the one under [data]. *)
Definition tag_under_data : pyval :=
  PDict [("id", PStr "n1"); ("data", PDict [("id", PStr "ChatInput-9")])].

(** A ChatInput node known by its type alone. *)
Definition anonymous_chat_input : pyval :=
  PDict [("type", PStr "ChatInput"); ("data", PDict [("id", PStr "")])].

(** A ChatInput node known by its type alone, a value that is not a
    node, and a Prompt node. *)
Definition anonymous_first : list pyval :=
  [anonymous_chat_input; PInt 5; prompt_node "Summarise {name}"].

(** *** A sample run *)

(** Stand-ins for the formatting of the clock, for the examples: a
    reading is printed as its number of microseconds, a difference as a
    number of seconds with up to six decimals. *)
Definition sample_isoformat (t : Z) : string := "T+" +:+ Z_to_string t.

Definition sample_total_seconds (d : Z) : string :=
  let frac := String.substring 1 6 (Z_to_string (1000000 + d mod 1000000)) in
  Z_to_string (d / 1000000) +:+ "."
  +:+ match str_rstrip "0" frac with
      | EmptyString => "0"
      | digits => digits
      end.

Definition sample_env (answer : http_result) : env :=
  {| ollama_host := None;
     backend := fun _ => answer;
     uuid4 := "1b4e28ba-2fa1-41d2-883f-0016d3cca427";
     clock := fun n => 1700000000000000 + 250000 * Z.of_nat n;
     python_version := "3.11.9";
     current_directory := "/app";
     directory_contents := ["run_flow.py"; "flows"] |}.

Definition say_flow : pyval := PDict (nodes_of [input_node "Say {word}"]).

(** A flat document with a key of its own, and the same content under
    [data]. *)
Definition flat_document : pyval :=
  PDict [("name", PStr "demo"); ("nodes", PList [input_node "Say {word}"]);
         ("edges", PList [])].

Definition nested_document : pyval :=
  PDict [("data", PDict [("nodes", PList [input_node "Say {word}"]);
                         ("edges", PList [])])].

Definition sample_files : gmap string string :=
  {[ "flows/say.json" := RefCodec.dumps (Some 2%nat) say_flow;
     "flows/flat.json" := RefCodec.dumps None flat_document;
     "flows/nested.json" := RefCodec.dumps None nested_document;
     "notes.txt" := "not json" ]}.

Definition sample_world : world :=
  {| files := sample_files; stdout := []; sent := []; ticks := 0 |}.

(** The inline payload [{"word": "hi"}], in single quotes. *)
Definition say_hi : pyval := PDict [("word", PStr "hi")].

Definition say_hi_argument : string := "'" +:+ RefCodec.dumps None say_hi +:+ "'".

Definition sample_argv : list string :=
  ["run_flow.py"; "flows/say.json"; say_hi_argument].

Definition sample_main (answer : http_result) : Z * world :=
  main RefCodec.loads RefCodec.error_text RefCodec.dumps
    sample_isoformat sample_total_seconds (sample_env answer) sample_argv sample_world.

Definition sample_record (status : string) (output : pyval) (error : string) : pyval :=
  execution_record sample_isoformat sample_total_seconds
    "1b4e28ba-2fa1-41d2-883f-0016d3cca427" "say" status say_hi output error
    1700000000250000 1700000000500000.

(** ** Vocabulary of the further statements *)

(** The value under [data] has the nested form: a mapping whose [nodes]
    and [edges] are lists. *)
Definition nested_form (d : pyval) : bool :=
  match d with
  | PDict data =>
      match dict_lookup "nodes" data, dict_lookup "edges" data with
      | Some nodes, Some edges => is_list nodes && is_list edges
      | _, _ => false
      end
  | _ => false
  end.

(** The document has one of the two forms the loader accepts: under
    a [data] key, the nested form; without a [data] key, [nodes] and
    [edges] that are lists. *)
Definition accepted_form (flow : pyval) : bool :=
  match flow with
  | PDict root =>
      match dict_lookup "data" root with
      | Some d => nested_form d
      | None =>
          match dict_lookup "nodes" root, dict_lookup "edges" root with
          | Some nodes, Some edges => is_list nodes && is_list edges
          | _, _ => false
          end
      end
  | _ => false
  end.

(** The flow is a mapping whose [nodes] entry is a list. *)
Definition has_node_list (flow : pyval) : bool :=
  match workflow_nodes flow with
  | Some nodes => is_list nodes
  | None => false
  end.

Definition is_str (v : pyval) : bool :=
  match v with PStr _ => true | _ => false end.

(** The key has no placeholder in the text. *)
Definition unused_key (t : string) (kv : string * pyval) : bool :=
  negb (str_contains ("{" +:+ fst kv +:+ "}") t).

(** Every character of [s] is one of [chars]. *)
Definition only_chars (chars s : string) : bool :=
  forallb (in_chars chars) (list_ascii_of_string s).

(** The calls [f x1], [f x2], ... in a row, up to the first one that does
    not return. *)
Fixpoint run_each {A : Type} (f : A -> prog unit) (xs : list A) : prog unit :=
  match xs with
  | [] => ret tt
  | x :: rest => bind (f x) (fun _ => run_each f rest)
  end.

(** Loading and resolution, the two stages before the request. *)
Definition resolved (json_loads : string -> option pyval) (json_error : string -> string)
    (fs : gmap string string) (flow_path : string) (input_data : pyval) : result pyval :=
  perform flow <- load_workflow json_loads json_error fs flow_path;
  extract_prompt flow input_data.

Definition is_value_error (e : exn) : bool :=
  match e with ValueError _ => true | _ => false end.

(** A world whose ledger holds a JSON object. *)
Definition object_ledger_world : world :=
  {| files := <[ledger_path := "{}"]> sample_files;
     stdout := []; sent := []; ticks := 0 |}.

(** A file whose text decodes to a string. *)
Definition label_files : gmap string string :=
  <["flows/label.json" := RefCodec.dumps None (PStr "label")]> sample_files.

(** The world [w] with [lines] printed before its own output. *)
Definition push_out (lines : list string) (w : world) : world :=
  {| files := files w; stdout := lines ++ stdout w; sent := sent w; ticks := ticks w |}.

(** The program never reads what has been printed: run after [lines]
    it ends the same way, in the same world, after [lines]. *)
Definition output_blind {A : Type} (p : prog A) : Prop :=
  forall lines w, p (push_out lines w) = (fst (p w), push_out lines (snd (p w))).

(** * Properties *)

(** ** Strings *)

#[local] Arguments String.append !s1 s2 : simpl nomatch.

Lemma append_nil_r (s : string) : s +:+ "" = s.
Proof. induction s as [|c s IH]; simpl; [reflexivity | now rewrite IH]. Qed.

Lemma append_assoc (a b c : string) : (a +:+ b) +:+ c = a +:+ (b +:+ c).
Proof. induction a as [|x a IH]; simpl; [reflexivity | now rewrite IH]. Qed.

Lemma append_length (a b : string) :
  String.length (a +:+ b) = (String.length a + String.length b)%nat.
Proof. induction a as [|x a IH]; simpl; [reflexivity | now rewrite IH]. Qed.

Lemma append_inv_head (a b c : string) : a +:+ b = a +:+ c -> b = c.
Proof. induction a as [|x a IH]; simpl; intros H; [exact H | injection H; auto]. Qed.

Lemma ascii_eqb_refl (c : ascii) : Ascii.eqb c c = true.
Proof. now apply Ascii.eqb_eq. Qed.

(** [String.prefix p s] holds exactly when [s] starts with [p]. *)
Lemma prefix_spec (p s : string) :
  String.prefix p s = true <-> exists r, s = p +:+ r.
Proof.
  revert s. induction p as [|c p IH]; intros [|d s]; simpl.
  - split; [intros _; now exists "" | reflexivity].
  - split; [intros _; now exists (String d s) | reflexivity].
  - split; [discriminate | intros [r Hr]; discriminate].
  - destruct (ascii_dec c d) as [->|Hne].
    + rewrite IH. split; intros [r Hr]; exists r.
      * now rewrite Hr.
      * now injection Hr.
    + split; [discriminate | intros [r Hr]; injection Hr; intros _ E; congruence].
Qed.

Lemma prefix_append (p r : string) : String.prefix p (p +:+ r) = true.
Proof. apply prefix_spec. now exists r. Qed.

(** [str_contains n h] holds exactly when [n] occurs somewhere in [h]. *)
Lemma str_contains_spec (n h : string) :
  str_contains n h = true <-> exists a b, h = a +:+ n +:+ b.
Proof.
  induction h as [|c h IH].
  - cbn [str_contains]. rewrite orb_false_r, prefix_spec. split.
    + intros [r Hr]. now exists "", r.
    + intros [a [b Hab]]. destruct a; [now exists b | discriminate].
  - cbn [str_contains]. rewrite orb_true_iff, prefix_spec, IH. split.
    + intros [[r Hr] | [a [b Hab]]].
      * now exists "", r.
      * exists (String c a), b. simpl. now rewrite Hab.
    + intros [a [b Hab]]. destruct a as [|x a].
      * left. now exists b.
      * right. injection Hab as _ Hh. now exists a, b.
Qed.

Lemma str_contains_false_tail (n : string) (c : ascii) (h : string) :
  str_contains n (String c h) = false -> str_contains n h = false.
Proof. cbn [str_contains]. now intros [_ H]%orb_false_iff. Qed.

(** Dropping the rest of a match. *)
Lemma replace_from_skip (old new p s : string) :
  replace_from old new (String.length p) (p +:+ s) = replace_from old new 0 s.
Proof.
  induction p as [|c p IH]; simpl; [| exact IH].
  destruct s; reflexivity.
Qed.

(** The three equations of [str_replace] for a non-empty [old]. *)
Lemma str_replace_nil (old new : string) :
  old <> "" -> str_replace old new "" = "".
Proof. destruct old; [congruence | reflexivity]. Qed.

Lemma str_replace_match (old new s : string) :
  old <> "" -> str_replace old new (old +:+ s) = new +:+ str_replace old new s.
Proof.
  destruct old as [|c old]; [congruence | intros _].
  unfold str_replace.
  change (String c old +:+ s) with (String c (old +:+ s)) at 1.
  cbn [replace_from].
  change (String c (old +:+ s)) with (String c old +:+ s).
  rewrite prefix_append.
  replace (String.length (String c old) - 1)%nat with (String.length old)
    by (cbn [String.length]; lia).
  now rewrite replace_from_skip.
Qed.

Lemma str_replace_step (old new : string) (c : ascii) (s : string) :
  old <> "" -> String.prefix old (String c s) = false ->
  str_replace old new (String c s) = String c (str_replace old new s).
Proof.
  destruct old as [|x old]; [congruence | intros _ H].
  unfold str_replace. cbn [replace_from]. now rewrite H.
Qed.

(** A string in which [old] does not occur is left as it is. *)
Lemma str_replace_absent (old new s : string) :
  old <> "" -> str_contains old s = false -> str_replace old new s = s.
Proof.
  intros Hold. induction s as [|c s IH]; intros H.
  - now apply str_replace_nil.
  - pose proof (str_contains_false_tail _ _ _ H) as Ht.
    cbn [str_contains] in H. apply orb_false_iff in H as [Hp _].
    rewrite str_replace_step by assumption. now rewrite IH.
Qed.

(** The leftmost occurrence is replaced and the scan goes on after it:
    when the only place where [old] occurs in [a +:+ old] is its end,
    [a] is copied, [new] is written, and the rest is treated in turn. *)
Lemma str_replace_first (old new a b : string) :
  old <> "" ->
  (forall p q, a +:+ old = p +:+ old +:+ q -> q = "") ->
  str_replace old new (a +:+ old +:+ b) = a +:+ new +:+ str_replace old new b.
Proof.
  intros Hold. induction a as [|c a IH]; intros Hfirst.
  - simpl. now apply str_replace_match.
  - cbn [append]. rewrite str_replace_step; [| assumption |].
    + rewrite IH; [reflexivity |].
      intros p q E. apply (Hfirst (String c p) q). simpl. now rewrite E.
    + destruct (String.prefix old (String c (a +:+ old +:+ b))) eqn:E; [| reflexivity].
      exfalso. apply prefix_spec in E as [r Hr].
      (* [old] is then a prefix of [c a old] too, a second occurrence *)
      assert (Hlen : (String.length old <= String.length (String c a +:+ old))%nat)
        by (rewrite append_length; lia).
      assert (Hpre : exists q, String c a +:+ old = old +:+ q).
      { clear -Hr Hlen. change (String c (a +:+ old +:+ b)) with (String c a +:+ old +:+ b) in Hr.
        rewrite <- append_assoc in Hr.
        revert Hr Hlen. generalize (String c a +:+ old) as u. clear.
        induction old as [|x old IHo]; intros u Hr Hlen.
        - now exists u.
        - destruct u as [|y u]; [simpl in Hlen; lia |].
          simpl in Hr. injection Hr as -> Hr. simpl in Hlen.
          destruct (IHo u Hr ltac:(lia)) as [q Hq]. exists q. simpl. now rewrite Hq. }
      destruct Hpre as [q Hq].
      pose proof (Hfirst "" q Hq) as ->. rewrite append_nil_r in Hq.
      apply (f_equal String.length) in Hq. rewrite append_length in Hq.
      simpl in Hq. lia.
Qed.

(** ** The first strategy *)

Lemma eq_str_true (v : pyval) (s : string) : eq_str v s = true -> v = PStr s.
Proof.
  destruct v; simpl; try discriminate. now intros ->%String.eqb_eq.
Qed.

(** A node the first strategy passes over lets the scan go on. *)
Lemma scan_input_node_pass (node : pyval) (rest : list pyval) (input_data : pyval) :
  passed_over node = true ->
  scan_input_node (node :: rest) input_data = scan_input_node rest input_data.
Proof.
  unfold passed_over, input_data_is_mapping, direct_input.
  destruct node as [| | | | | |fields]; try reflexivity.
  cbn [scan_input_node]. unfold is_input_node.
  destruct (dict_lookup "type" fields) as [ty|]; [| reflexivity].
  destruct (eq_str ty "InputNode"); [| reflexivity].
  destruct (dict_lookup "data" fields) as [data|]; [| reflexivity].
  destruct data as [| | | | | |data]; simpl; try discriminate.
  unfold dict_has. destruct (dict_lookup "input" data); [discriminate | reflexivity].
Qed.

Lemma scan_input_node_skip (pre rest : list pyval) (input_data : pyval) :
  forallb passed_over pre = true ->
  scan_input_node (pre ++ rest) input_data = scan_input_node rest input_data.
Proof.
  induction pre as [|m pre IH]; [reflexivity |].
  cbn [forallb]. intros [Hm Hpre]%andb_true_iff.
  change ((m :: pre) ++ rest) with (m :: (pre ++ rest)).
  rewrite scan_input_node_pass by exact Hm. now apply IH.
Qed.

(** A node of the first strategy ends the scan with its template. *)
Lemma scan_input_node_hit (node template : pyval) (rest : list pyval)
    (input_data : pyval) :
  direct_input node = Some template ->
  scan_input_node (node :: rest) input_data =
  perform processed <- substitute template input_data; Ok (Some processed).
Proof.
  unfold direct_input.
  destruct node as [| | | | | |fields]; try discriminate.
  cbn [scan_input_node]. unfold is_input_node. cbn [py_getitem].
  destruct (dict_lookup "type" fields) as [ty|]; [| discriminate].
  destruct (dict_lookup "data" fields) as [data|]; [| discriminate].
  destruct data as [| | | | | |data]; try discriminate.
  destruct (eq_str ty "InputNode"); [| discriminate].
  intros H. cbn [py_contains rbind]. unfold dict_has. rewrite H.
  cbn [py_getitem rbind]. now rewrite H.
Qed.

Lemma scan_input_node_first (pre post : list pyval) (node template input_data : pyval) :
  forallb passed_over pre = true ->
  direct_input node = Some template ->
  scan_input_node (pre ++ node :: post) input_data =
  perform processed <- substitute template input_data; Ok (Some processed).
Proof.
  intros Hpre Hnode. rewrite scan_input_node_skip by exact Hpre.
  now apply scan_input_node_hit.
Qed.

Lemma scan_input_node_none (nodes : list pyval) (input_data : pyval) :
  forallb passed_over nodes = true ->
  scan_input_node nodes input_data = Ok None.
Proof.
  intros H. rewrite <- (app_nil_r nodes). now rewrite scan_input_node_skip.
Qed.

(** What [extract_prompt] returns once the first strategy has a node. *)
Lemma resolution_priority_aux (fields : list (string * pyval))
    (pre post : list pyval) (node template input_data : pyval) :
  dict_lookup "nodes" fields = Some (PList (pre ++ node :: post)) ->
  forallb passed_over pre = true ->
  direct_input node = Some template ->
  extract_prompt (PDict fields) input_data = substitute template input_data.
Proof.
  intros Hnodes Hpre Hnode. unfold extract_prompt. rewrite Hnodes.
  rewrite (scan_input_node_first pre post node template) by assumption.
  destruct (substitute template input_data); reflexivity.
Qed.

(** C1.  Resolution priority: in a workflow whose nodes, in array order,
    are first nodes the first strategy passes over and then a node of type
    [InputNode] whose [data] mapping has an [input] field, [extract_prompt]
    returns that field after substitution, whatever the other nodes are: a
    ChatInput/Prompt pair anywhere in the list does not change the result,
    and a later [InputNode] does not either. *)
Theorem resolution_priority (fields : list (string * pyval))
    (pre post : list pyval) (node template input_data : pyval) :
  dict_lookup "nodes" fields = Some (PList (pre ++ node :: post)) ->
  forallb passed_over pre = true ->
  direct_input node = Some template ->
  extract_prompt (PDict fields) input_data = substitute template input_data.
Proof. exact (resolution_priority_aux fields pre post node template input_data). Qed.

(** ** Placeholder substitution *)

(** The first occurrence of [old] in a string that contains it. *)
Lemma first_occurrence (old s : string) :
  str_contains old s = true ->
  exists a b, s = a +:+ old +:+ b /\
              (forall p q, a +:+ old = p +:+ old +:+ q -> q = "").
Proof.
  induction s as [|c s IH]; cbn [str_contains].
  - rewrite orb_false_r. intros [r Hr]%prefix_spec.
    destruct old; [| discriminate]. exists "", "". split; [reflexivity |].
    intros p q E. destruct p; [| discriminate]. now simpl in E.
  - destruct (String.prefix old (String c s)) eqn:Hp.
    + intros _. apply prefix_spec in Hp as [r Hr].
      exists "", r. split; [exact Hr |].
      intros p q E. apply (f_equal String.length) in E.
      rewrite !append_length in E. simpl in E.
      destruct q; [reflexivity | simpl in E; lia].
    + rewrite orb_false_l. intros Hs. destruct (IH Hs) as (a & b & -> & Hfirst).
      exists (String c a), b. split; [reflexivity |].
      intros p q E. destruct p as [|x p].
      * exfalso. simpl in E.
        assert (String.prefix old (String c (a +:+ old +:+ b)) = true); [| congruence].
        apply prefix_spec. exists (q +:+ b).
        change (String c (a +:+ old +:+ b)) with (String c a +:+ old +:+ b).
        rewrite <- !append_assoc. now rewrite <- E.
      * simpl in E. injection E as _ E. now apply (Hfirst p q).
Qed.

(** [str_replace] replaces every occurrence. *)
Lemma str_replace_replaced (old new s : string) :
  old <> "" -> replaced old new s (str_replace old new s).
Proof.
  intros Hold.
  remember (String.length s) as n eqn:Hn. revert s Hn.
  induction n as [n IH] using lt_wf_ind. intros s ->.
  destruct (str_contains old s) eqn:Hc.
  - destruct (first_occurrence old s Hc) as (a & b & -> & Hfirst).
    rewrite str_replace_first by assumption.
    apply replaced_next; [exact Hfirst |].
    apply (IH (String.length b)); [| reflexivity].
    rewrite !append_length. destruct old; [congruence | simpl; lia].
  - rewrite str_replace_absent by assumption. now apply replaced_none.
Qed.

Lemma substitute_items_text (items : list (string * pyval)) (t : string) :
  substitute_items items (PStr t) =
  Ok (PStr (fold_left
              (fun acc kv => str_replace ("{" +:+ fst kv +:+ "}") (py_str (snd kv)) acc)
              items t)).
Proof.
  revert t. induction items as [|[key value] rest IH]; intros t; [reflexivity |].
  cbn [substitute_items py_replace rbind fold_left fst snd]. apply IH.
Qed.

Lemma fold_substituted (items : list (string * pyval)) (t : string) :
  substituted items t
    (fold_left
       (fun acc kv => str_replace ("{" +:+ fst kv +:+ "}") (py_str (snd kv)) acc)
       items t).
Proof.
  revert t. induction items as [|[key value] rest IH]; intros t.
  - apply substituted_nil.
  - cbn [fold_left fst snd].
    eapply substituted_cons; [| apply IH].
    apply str_replace_replaced. discriminate.
Qed.

Lemma substitute_empty (input_data : pyval) :
  substitute (PStr "") input_data = Ok (PStr "").
Proof.
  destruct input_data as [| | | | | |items]; try reflexivity.
  cbn [substitute]. rewrite substitute_items_text. do 2 f_equal.
  induction items as [|[key value] rest IH]; [reflexivity | exact IH].
Qed.

(** C5.  Placeholder substitution.  With a mapping as payload and a
    string as template, the result is the working string after one pass
    per key/value pair, in the payload's order, each pass replacing every
    occurrence of [{key}] in the current state of the string by
    [str(value)]; a payload that is not a mapping leaves the template
    unchanged; and the template ["Hello {name}, you are {age}"] with the
    payload [{"name": "Ada", "age": 30}] resolves to
    ["Hello Ada, you are 30"]. *)
Theorem placeholder_substitution :
  (forall (template : string) (items : list (string * pyval)),
     exists r, substitute (PStr template) (PDict items) = Ok (PStr r) /\
               substituted items template r) /\
  (forall template input_data : pyval,
     is_dict input_data = false -> substitute template input_data = Ok template) /\
  extract_prompt greeting_flow ada = Ok (PStr "Hello Ada, you are 30").
Proof.
  split; [| split].
  - intros template items. eexists. split.
    + apply substitute_items_text.
    + apply fold_substituted.
  - intros template [| | | | | |items]; try reflexivity. discriminate.
  - reflexivity.
Qed.

(** ** The second strategy *)

Lemma node_attr_effective (fields : list (string * pyval)) (k : string) :
  data_is_mapping fields = true ->
  node_attr (PDict fields) k = Ok (effective fields k).
Proof.
  unfold data_is_mapping, node_attr, effective, py_or. cbn [py_get].
  intros Hdata.
  assert (Hnested :
    (perform data <- py_get (PDict fields) "data" (PDict []); py_get data k PNone)
    = Ok match dict_lookup "data" fields with
         | Some (PDict data) =>
             match dict_lookup k data with Some v => v | None => PNone end
         | _ => PNone
         end).
  { cbn [py_get]. destruct (dict_lookup "data" fields) as [data|].
    - destruct data as [| | | | | |data]; try discriminate.
      cbn [rbind py_get]. now destruct (dict_lookup k data).
    - reflexivity. }
  destruct (dict_lookup k fields) as [v|]; cbn [rbind].
  - destruct (truthy v); [reflexivity | exact Hnested].
  - cbn [truthy]. exact Hnested.
Qed.

Lemma tag_matches_text (tag : string) (i t : pyval) :
  tag <> "" -> is_text i = true -> is_text t = true ->
  tag_matches tag i t = true <->
  (exists r, i = PStr (tag +:+ r)) \/ (exists a b, t = PStr (a +:+ tag +:+ b)).
Proof.
  intros Htag Hi Ht. unfold tag_matches, str_startswith.
  rewrite orb_true_iff, !andb_true_iff. split.
  - intros [[Htrue H] | [Htrue H]].
    + left. destruct i; try discriminate.
      cbn [py_str] in H. apply prefix_spec in H as [r ->]. now exists r.
    + right. destruct t; try discriminate.
      cbn [py_str] in H. apply str_contains_spec in H as (a & b & ->). now exists a, b.
  - intros [[r ->] | (a & b & ->)].
    + left. cbn [py_str truthy]. split; [| apply prefix_append].
      destruct tag; [congruence | reflexivity].
    + right. cbn [py_str truthy]. split.
      * destruct a; [destruct tag; [congruence | reflexivity] | reflexivity].
      * apply str_contains_spec. now exists a, b.
Qed.

(** C3, as the code has it.  For a node whose [data], when present, is a
    mapping and whose identifier and type are strings or missing, the
    search for a tag (['ChatInput'] or ['Prompt']) looks at one identifier
    and one type: the top-level field when it is present and not empty,
    the field of [data] otherwise.  The node matches exactly when that
    identifier starts with the tag or that type contains the tag
    somewhere, both compared case-sensitively. *)
Theorem search_rule (tag : string) (fields : list (string * pyval)) :
  tag <> "" ->
  data_is_mapping fields = true ->
  is_text (effective fields "id") = true ->
  is_text (effective fields "type") = true ->
  exists hit,
    node_matches tag (PDict fields) = Ok (effective fields "id", hit) /\
    (hit = true <->
     (exists r, effective fields "id" = PStr (tag +:+ r)) \/
     (exists a b, effective fields "type" = PStr (a +:+ tag +:+ b))).
Proof.
  intros Htag Hdata Hid Hty. unfold node_matches.
  rewrite !node_attr_effective by assumption. cbn [rbind].
  eexists. split; [reflexivity |]. now apply tag_matches_text.
Qed.

Lemma find_chat_input_skip (pre rest : list pyval) :
  forallb (misses "ChatInput") pre = true ->
  find_chat_input (pre ++ rest) = find_chat_input rest.
Proof.
  induction pre as [|m pre IH]; [reflexivity |].
  cbn [forallb]. intros [Hm Hpre]%andb_true_iff.
  change ((m :: pre) ++ rest) with (m :: (pre ++ rest)).
  cbn [find_chat_input]. unfold misses in Hm.
  destruct (node_matches "ChatInput" m) as [[id [|]]|]; try discriminate.
  cbn [rbind snd]. now apply IH.
Qed.

Lemma node_matches_by_type (tag : string) (node : pyval) :
  no_identifier node = true -> type_contains tag node = true ->
  exists id, node_matches tag node = Ok (id, true) /\ truthy id = false.
Proof.
  unfold no_identifier, type_contains, node_matches.
  destruct (node_attr node "id") as [id|]; [| discriminate].
  destruct (node_attr node "type") as [ty|]; [| discriminate].
  intros Hid%negb_true_iff Hty. exists id. split; [| exact Hid].
  cbn [rbind]. unfold tag_matches. now rewrite Hty, orb_true_r.
Qed.

(** C10.  When the first node that matches the ChatInput search matches
    by its type and has no identifier, at the top level or in [data], the
    second strategy stops there: with no node for the first strategy
    either, [extract_prompt] raises the no-matching-node error, whatever
    nodes follow, a Prompt node with a template included. *)
Theorem chat_input_without_identifier (fields : list (string * pyval))
    (pre post : list pyval) (node input_data : pyval) :
  dict_lookup "nodes" fields = Some (PList (pre ++ node :: post)) ->
  forallb passed_over (pre ++ node :: post) = true ->
  forallb (misses "ChatInput") pre = true ->
  no_identifier node = true ->
  type_contains "ChatInput" node = true ->
  extract_prompt (PDict fields) input_data = Raise no_node_error.
Proof.
  intros Hnodes Hpass Hpre Hid Hty. unfold extract_prompt. rewrite Hnodes.
  rewrite scan_input_node_none by exact Hpass. cbn [rbind].
  unfold langflow_prompt. rewrite find_chat_input_skip by exact Hpre.
  destruct (node_matches_by_type "ChatInput" node Hid Hty) as (id & Hm & Hfalse).
  cbn [find_chat_input]. rewrite Hm. cbn [rbind snd fst]. now rewrite Hfalse.
Qed.

(** C2, as the code has it.  The strategies run in the order A, B.  The
    first strategy wins as soon as a node offers it an [input] field,
    the empty string included, and the second strategy is then not tried.
    The second strategy is tried when the first one passes over every
    node; once its ChatInput and Prompt nodes are found it wins when the
    template it reads is not empty, and the resolver fails otherwise. *)
Theorem strategy_order (fields : list (string * pyval)) (nodes : list pyval)
    (input_data : pyval) :
  dict_lookup "nodes" fields = Some (PList nodes) ->
  (forall pre node post,
     nodes = pre ++ node :: post ->
     forallb passed_over pre = true ->
     direct_input node = Some (PStr "") ->
     extract_prompt (PDict fields) input_data = Ok (PStr "")) /\
  (forallb passed_over nodes = true ->
   extract_prompt (PDict fields) input_data = langflow_prompt nodes input_data) /\
  (forall chat_input_id prompt_node template,
     find_chat_input nodes = Ok chat_input_id -> truthy chat_input_id = true ->
     find_prompt_node nodes = Ok prompt_node -> truthy prompt_node = true ->
     prompt_template prompt_node = Ok template ->
     langflow_prompt nodes input_data =
     if truthy template then substitute template input_data else Raise no_node_error).
Proof.
  intros Hnodes. split; [| split].
  - intros pre node post -> Hpre Hnode.
    rewrite (resolution_priority_aux fields pre post node (PStr "")) by assumption.
    apply substitute_empty.
  - intros Hpass. unfold extract_prompt. rewrite Hnodes.
    now rewrite scan_input_node_none by exact Hpass.
  - intros id p t Hid Hidt Hp Hpt Ht. unfold langflow_prompt.
    rewrite Hid. cbn [rbind]. rewrite Hidt, Hp. cbn [rbind]. rewrite Hpt, Ht.
    reflexivity.
Qed.

(** ** The workflow name *)

(** In [stem.json], with no [.json] inside [stem], the only occurrence of
    [.json] is the last one. *)
Lemma json_only_at_end (stem p q : string) :
  str_contains ".json" stem = false ->
  stem +:+ ".json" = p +:+ ".json" +:+ q -> q = "".
Proof.
  revert p. induction stem as [|c stem IH]; intros p Hc E.
  - apply (f_equal String.length) in E. rewrite !append_length in E.
    destruct q; [reflexivity | simpl in E; lia].
  - destruct p as [|x p].
    + exfalso. cbn [str_contains] in Hc. apply orb_false_iff in Hc as [Hp _].
      assert (String.prefix ".json" (String c stem) = true); [| congruence].
      clear -E. simpl in E. injection E as -> E.
      do 4 (destruct stem as [|? stem]; [discriminate | injection E as -> E]).
      apply prefix_spec. now exists stem.
    + simpl in E. injection E as _ E.
      apply (IH p); [| exact E]. now apply str_contains_false_tail in Hc.
Qed.

(** C9, as the code has it.  The workflow name is the base name of the
    path without its [.json] suffix, when the base name ends in [.json]
    and holds no other [.json]; a base name that holds no [.json] is the
    workflow name as it is, with whatever other extension it has. *)
Theorem flow_name_json (flow_path : string) :
  (forall stem, basename flow_path = stem +:+ ".json" ->
                str_contains ".json" stem = false ->
                flow_name flow_path = stem) /\
  (str_contains ".json" (basename flow_path) = false ->
   flow_name flow_path = basename flow_path).
Proof.
  unfold flow_name. split.
  - intros stem -> Hstem.
    replace (stem +:+ ".json") with (stem +:+ ".json" +:+ "")
      by now rewrite append_nil_r.
    rewrite str_replace_first; [| discriminate | ].
    + cbn. now rewrite append_nil_r.
    + intros p q. now apply json_only_at_end.
  - intros H. apply str_replace_absent; [discriminate | exact H].
Qed.

(** ** The loader *)

(** What [normalize_workflow] accepts, and what it returns for it. *)
Lemma normalize_workflow_ok (flow w : pyval) :
  normalize_workflow flow = Ok w ->
  exists root nodes edges,
    flow = PDict root /\
    ((exists data,
        dict_lookup "data" root = Some (PDict data) /\
        dict_lookup "nodes" data = Some (PList nodes) /\
        dict_lookup "edges" data = Some (PList edges) /\
        w = PDict [("nodes", PList nodes); ("edges", PList edges)])
     \/
     (dict_lookup "data" root = None /\
      dict_lookup "nodes" root = Some (PList nodes) /\
      dict_lookup "edges" root = Some (PList edges) /\
      w = flow)).
Proof.
  unfold normalize_workflow.
  destruct flow as [| | | | | |root]; try discriminate.
  destruct (dict_lookup "data" root) as [data|] eqn:Hdata.
  - destruct data as [| | | | | |data]; try discriminate.
    destruct (dict_lookup "nodes" data) as [nodes|] eqn:Hn; [| discriminate].
    destruct (dict_lookup "edges" data) as [edges|] eqn:He; [| discriminate].
    destruct nodes as [| | | | |nodes|]; try discriminate.
    destruct edges as [| | | | |edges|]; try discriminate.
    cbn [is_list andb]. intros [= <-].
    exists root, nodes, edges. split; [reflexivity |]. left. exists data. auto.
  - destruct (dict_lookup "nodes" root) as [nodes|] eqn:Hn; [| discriminate].
    destruct (dict_lookup "edges" root) as [edges|] eqn:He; [| discriminate].
    destruct nodes as [| | | | |nodes|]; try discriminate.
    destruct edges as [| | | | |edges|]; try discriminate.
    cbn [is_list andb]. intros [= <-].
    exists root, nodes, edges. split; [reflexivity |]. right. auto.
Qed.

Section RunnerProperties.

Variable json_loads : string -> option pyval.
Variable json_error : string -> string.
Variable json_dumps : option nat -> pyval -> string.
Variable isoformat : Z -> string.
Variable total_seconds : Z -> string.

Lemma load_workflow_ok (fs : gmap string string) (path : string) (w : pyval) :
  load_workflow json_loads json_error fs path = Ok w ->
  exists text flow,
    fs !! path = Some text /\ json_loads text = Some flow /\
    normalize_workflow flow = Ok w.
Proof.
  unfold load_workflow, read_json.
  destruct (fs !! path) as [text|] eqn:Hfile; [| discriminate].
  destruct (json_loads text) as [flow|] eqn:Hparse; [| discriminate].
  cbn [rbind]. intros H. now exists text, flow.
Qed.

(** C4, as the code has it.  When [load_workflow] succeeds the file holds
    a JSON mapping, in the nested or in the flat form, and the value
    returned is a mapping in which [nodes] and [edges] are the lists of the
    document, in their order: the mapping of exactly these two keys for
    the nested form, the root mapping itself, with whatever other keys it
    has, for the flat form.  So a flat and a nested document with the same
    node and edge sequences give results with the same [nodes] and the
    same [edges]. *)
Theorem load_workflow_shape (fs : gmap string string) (path : string) (w : pyval) :
  load_workflow json_loads json_error fs path = Ok w ->
  exists text root nodes edges,
    fs !! path = Some text /\ json_loads text = Some (PDict root) /\
    workflow_nodes w = Some (PList nodes) /\
    workflow_edges w = Some (PList edges) /\
    ((exists data,
        dict_lookup "data" root = Some (PDict data) /\
        dict_lookup "nodes" data = Some (PList nodes) /\
        dict_lookup "edges" data = Some (PList edges) /\
        w = PDict [("nodes", PList nodes); ("edges", PList edges)])
     \/
     (dict_lookup "data" root = None /\
      dict_lookup "nodes" root = Some (PList nodes) /\
      dict_lookup "edges" root = Some (PList edges) /\
      w = PDict root)).
Proof.
  intros H. apply load_workflow_ok in H as (text & flow & Hfile & Hparse & Hnorm).
  apply normalize_workflow_ok in Hnorm as (root & nodes & edges & -> & Hform).
  exists text, root, nodes, edges. repeat split; try assumption.
  - destruct Hform as [(data & _ & _ & _ & ->) | (_ & Hn & _ & ->)];
      [reflexivity | exact Hn].
  - destruct Hform as [(data & _ & _ & _ & ->) | (_ & _ & He & ->)];
      [reflexivity | exact He].
Qed.

(** ** The ledger *)

Local Abbreviation append_log := (append_execution_log json_loads json_dumps).

(** What a call of [append_execution_log] does, by the state of the file. *)
Lemma append_execution_log_rows (entry : pyval) (path : string) (w : world)
    (rows : list pyval) :
  ledger_rows json_loads (files w) path = Some rows ->
  (files w !! path = None -> round_trips json_loads json_dumps None (PList [])) ->
  append_log entry path w =
  (Returned tt,
   set_files (<[path := json_dumps (Some 2%nat) (PList (rows ++ [entry]))]> (files w)) w).
Proof.
  unfold ledger_rows, round_trips, append_execution_log, bind, get_files, put_file, ret, lift.
  intros Hrows Hempty.
  destruct (files w !! path) as [text|] eqn:Hfile.
  - cbn. rewrite Hfile.
    destruct (json_loads text) as [data|].
    + destruct data as [| | | | |rows'|]; try discriminate.
      injection Hrows as ->. reflexivity.
    + injection Hrows as <-. reflexivity.
  - cbn. rewrite lookup_insert_eq, (Hempty eq_refl).
    injection Hrows as <-. cbn. unfold set_files. cbn.
    now rewrite insert_insert_eq.
Qed.

(** A call that returns has started from an array. *)
Lemma append_execution_log_returned (entry : pyval) (path : string) (w w' : world) :
  append_log entry path w = (Returned tt, w') ->
  exists rows,
    files w' !! path = Some (json_dumps (Some 2%nat) (PList (rows ++ [entry]))).
Proof.
  unfold append_execution_log, bind, get_files, put_file, ret, lift.
  destruct (files w !! path) as [text|] eqn:Hfile; cbn.
  - rewrite Hfile.
    destruct (match json_loads text with Some d => d | None => PList [] end)
      as [| | | | |rows|]; try discriminate.
    intros [= <-]. exists rows. cbn. apply lookup_insert_eq.
  - rewrite lookup_insert_eq.
    destruct (match json_loads (json_dumps None (PList [])) with
              | Some d => d | None => PList [] end)
      as [| | | | |rows|]; try discriminate.
    intros [= <-]. exists rows. cbn. apply lookup_insert_eq.
Qed.

(** C7.  The ledger.  A call of [append_execution_log] that returns
    leaves in the file the JSON text of an array that ends with the new
    record, which reads back as that array wherever the codec reads back
    what it writes.  Two calls in a row on a path that does not exist
    leave the array of the two records, in the order of the calls.  And
    a call on a file that is not JSON returns and leaves the array of the
    new record alone. *)
Theorem ledger_append (path : string) (w : world) :
  (forall entry w',
     append_log entry path w = (Returned tt, w') ->
     exists rows text,
       files w' !! path = Some text /\
       text = json_dumps (Some 2%nat) (PList (rows ++ [entry])) /\
       (round_trips json_loads json_dumps (Some 2%nat) (PList (rows ++ [entry])) ->
        json_loads text = Some (PList (rows ++ [entry])))) /\
  (forall first second,
     files w !! path = None ->
     round_trips json_loads json_dumps None (PList []) ->
     round_trips json_loads json_dumps (Some 2%nat) (PList [first]) ->
     exists w1 w2,
       append_log first path w = (Returned tt, w1) /\
       append_log second path w1 = (Returned tt, w2) /\
       files w2 !! path = Some (json_dumps (Some 2%nat) (PList [first; second]))) /\
  (forall entry text,
     files w !! path = Some text ->
     json_loads text = None ->
     exists w',
       append_log entry path w = (Returned tt, w') /\
       files w' !! path = Some (json_dumps (Some 2%nat) (PList [entry]))).
Proof.
  split; [| split].
  - intros entry w' H.
    destruct (append_execution_log_returned entry path w w' H) as [rows Hrows].
    exists rows, (json_dumps (Some 2%nat) (PList (rows ++ [entry]))).
    split; [exact Hrows |]. split; [reflexivity |]. intros Hrt. exact Hrt.
  - intros first second Hnone Hempty Hfirst.
    eexists. eexists. split; [| split].
    + apply (append_execution_log_rows first path w []); [| auto].
      unfold ledger_rows. now rewrite Hnone.
    + apply (append_execution_log_rows second path _ [first]).
      * unfold ledger_rows. cbn. rewrite lookup_insert_eq.
        unfold round_trips in Hfirst. now rewrite Hfirst.
      * cbn. rewrite lookup_insert_eq. discriminate.
    + cbn. apply lookup_insert_eq.
  - intros entry text Hfile Hbad.
    eexists. split.
    + apply (append_execution_log_rows entry path w []); [| congruence].
      unfold ledger_rows. now rewrite Hfile, Hbad.
    + cbn. apply lookup_insert_eq.
Qed.

(** ** The runner *)

Local Abbreviation run_execute :=
  (execute json_loads json_error json_dumps isoformat total_seconds).
Local Abbreviation run_main :=
  (main json_loads json_error json_dumps isoformat total_seconds).
Local Abbreviation record := (execution_record isoformat total_seconds).

Lemma node_count_loaded (fs : gmap string string) (path : string) (flow : pyval) :
  load_workflow json_loads json_error fs path = Ok flow ->
  exists n, node_count flow = Ok n.
Proof.
  intros H. apply load_workflow_ok in H as (text & doc & _ & _ & Hnorm).
  apply normalize_workflow_ok in Hnorm as (root & nodes & edges & -> & Hform).
  exists (Z.of_nat (List.length nodes)). unfold node_count.
  destruct Hform as [(data & _ & _ & _ & ->) | (_ & Hn & _ & ->)];
    cbn [py_getitem]; [reflexivity | now rewrite Hn].
Qed.

Lemma load_input_payload (input_arg : string) (v : pyval) (w : world) :
  input_payload json_loads (files w) input_arg = Some v ->
  load_input json_loads json_error (str_strip quotes input_arg) w = (Returned v, w).
Proof.
  unfold input_payload, load_input, bind, get_files, read_json, ret.
  destruct (files w !! str_strip quotes input_arg) as [text|].
  - destruct (str_endswith (str_strip quotes input_arg) ".json"); intros ->; reflexivity.
  - intros ->. reflexivity.
Qed.

Lemma run_ollama_result (e : env) (prompt : pyval) (w : world) :
  run_ollama e prompt w =
  (match read_response (backend e (generate_request e prompt)) with
   | Ok v => Returned v
   | Raise ex => Threw ex
   end,
   {| files := files w; stdout := stdout w;
      sent := sent w ++ [generate_request e prompt]; ticks := ticks w |}).
Proof.
  unfold run_ollama, bind, post, lift.
  now destruct (read_response (backend e (generate_request e prompt))).
Qed.


Lemma main_execute (e : env) (program flow_path input_arg : string) (w : world)
    (input_data : pyval) :
  input_payload json_loads (files w) input_arg = Some input_data ->
  run_main e [program; flow_path; input_arg] w =
  match run_execute e flow_path input_data (flow_name flow_path) (uuid4 e)
          (clock e (S (ticks w))) (at_start json_dumps isoformat e program flow_path input_arg w) with
  | (Returned _, w') => (0, w')
  | (Threw ex, w') =>
      (1, {| files := files w';
             stdout := stdout w' ++ ["ERROR: Unexpected error in main: " +:+ exn_str ex];
             sent := sent w'; ticks := ticks w' |})
  | (Exited code, w') => (code, w')
  end.
Proof.
  intros Hinput.
  unfold main, main_body, try_except, bind, now, print, sys_exit, at_start.
  change (String "'" (String dquote "")) with quotes.
  cbn -[load_input execute String.append str_strip flow_name].
  rewrite (load_input_payload input_arg input_data) by (cbn; exact Hinput).
  cbn -[load_input execute String.append str_strip flow_name].
  destruct (run_execute e flow_path input_data (flow_name flow_path) (uuid4 e) _ _)
    as [[u|ex|code] w']; reflexivity.
Qed.


End RunnerProperties.

(** ** The generation client *)

(** C6, as the code has it.  [run_ollama] sends one request and no
    other.  It returns exactly when the backend answers with status 200
    and a body that decodes to a JSON object, and it then returns the
    [response] field of the body, the empty string when the field is
    missing.  On another status it raises an error that carries the
    status code and the text of the response; on a transport failure it
    raises an error that carries the text of the failure. *)
Theorem generation_outcome (e : env) (prompt : pyval) (w : world) :
  let request := generate_request e prompt in
  let answer := backend e request in
  let out := fst (run_ollama e prompt w) in
  let w' := snd (run_ollama e prompt w) in
  (sent w' = sent w ++ [request] /\ files w' = files w /\
   stdout w' = stdout w /\ ticks w' = ticks w) /\
  ((exists v, out = Returned v) <->
   (exists text body, answer = Responded 200 text (inl (PDict body)))) /\
  (forall text body,
     answer = Responded 200 text (inl (PDict body)) ->
     out = Returned match dict_lookup "response" body with
                    | Some v => v
                    | None => PStr ""
                    end) /\
  (forall status_code text json,
     answer = Responded status_code text json -> status_code <> 200 ->
     out = Threw (PyException
             ("Ollama request failed: " +:+ Z_to_string status_code +:+ " - " +:+ text))) /\
  (forall msg,
     answer = TransportFailure msg ->
     out = Threw (PyException ("Ollama connection error: " +:+ msg))).
Proof.
  cbv zeta. unfold run_ollama, bind, post, lift. cbn [fst snd].
  set (request := generate_request e prompt).
  assert (Hw : forall r : result pyval,
    snd (match r with
         | Ok a => (Returned a, {| files := files w; stdout := stdout w;
                                   sent := sent w ++ [request]; ticks := ticks w |})
         | Raise ex => (Threw ex, {| files := files w; stdout := stdout w;
                                     sent := sent w ++ [request]; ticks := ticks w |})
         end) = {| files := files w; stdout := stdout w;
                   sent := sent w ++ [request]; ticks := ticks w |})
    by (intros [|]; reflexivity).
  split; [rewrite Hw; cbn; auto |].
  split; [| split; [| split]].
  - unfold read_response. destruct (backend e request) as [status text json|msg].
    + destruct (Z.eqb_spec status 200) as [->|Hne].
      * destruct json as [body|msg].
        -- destruct body as [| | | | | |body]; cbn;
             (split; [intros [v H]; try discriminate
                     | intros (t & d & H); try discriminate]).
           ++ now exists text, body.
           ++ destruct (dict_lookup "response" body); eauto.
        -- cbn. split; [intros [v H]; discriminate | intros (t & b & H); discriminate].
      * cbn. split; [intros [v H]; discriminate | intros (t & b & H); congruence].
    + cbn. split; [intros [v H]; discriminate | intros (t & b & H); discriminate].
  - intros text body ->. cbn. now destruct (dict_lookup "response" body).
  - intros status text json -> Hne. cbn.
    destruct (Z.eqb_spec status 200); [contradiction | reflexivity].
  - intros msg ->. reflexivity.
Qed.

(** * Instances *)

(** ** The resolver *)

(** The ChatInput/Prompt pair of [both_strategies] would give the second
    strategy a template; the [InputNode] that follows it wins. *)
Lemma resolution_priority_witness :
  langflow_prompt both_strategies ada = Ok (PStr "Summarise Ada") /\
  extract_prompt (PDict (nodes_of both_strategies)) ada
  = substitute (PStr "Hello {name}, you are {age}") ada.
Proof.
  split; [reflexivity |].
  apply (resolution_priority (nodes_of both_strategies)
           [chat_input_node; prompt_node "Summarise {name}"] []
           (input_node "Hello {name}, you are {age}")); reflexivity.
Defined.

(** C2 fails on the code: the empty [input] of the first node wins, though
    the second strategy has a template that is not empty. *)
Lemma strategy_order_counterexample :
  extract_prompt (PDict (nodes_of empty_input_first)) ada = Ok (PStr "") /\
  langflow_prompt empty_input_first ada = Ok (PStr "Summarise Ada").
Proof. split; reflexivity. Qed.

Lemma strategy_order_witness :
  extract_prompt (PDict (nodes_of empty_input_first)) ada = Ok (PStr "").
Proof.
  apply (proj1 (strategy_order (nodes_of empty_input_first) empty_input_first ada eq_refl)
           [] (input_node "") [chat_input_node; prompt_node "Summarise {name}"]);
    reflexivity.
Defined.

(** C3 fails on the code: an identifier that holds [ChatInput] in the
    middle does not match, an identifier under [data] is not looked at
    when the node has one at the top level, and with such nodes the
    resolver finds no ChatInput node. *)
Lemma search_rule_counterexample :
  str_contains "ChatInput" "node-ChatInput-1" = true /\
  node_matches "ChatInput" tag_in_the_middle = Ok (PStr "node-ChatInput-1", false) /\
  node_matches "ChatInput" tag_under_data = Ok (PStr "n1", false) /\
  extract_prompt
    (PDict (nodes_of [tag_in_the_middle; tag_under_data; prompt_node "Summarise {name}"]))
    ada
  = Raise no_node_error.
Proof. repeat split; reflexivity. Qed.

Lemma search_rule_witness :
  exists hit,
    node_matches "ChatInput" chat_input_node = Ok (PStr "ChatInput-a1b2", hit) /\
    (hit = true <->
     (exists r, PStr "ChatInput-a1b2" = PStr ("ChatInput" +:+ r)) \/
     (exists a b, PStr "ChatInput" = PStr (a +:+ "ChatInput" +:+ b))).
Proof.
  apply (search_rule "ChatInput"
           [("id", PStr "ChatInput-a1b2"); ("data", PDict [("type", PStr "ChatInput")])]);
    [discriminate | reflexivity | reflexivity | reflexivity].
Defined.

Lemma placeholder_substitution_witness :
  substitute (PStr "Hello {name}") (PList [PStr "Ada"]) = Ok (PStr "Hello {name}").
Proof.
  apply (proj1 (proj2 placeholder_substitution)). reflexivity.
Defined.

(** C9 fails on the code: the extension of [summary.yaml] stays. *)
Lemma flow_name_counterexample :
  flow_name "flows/summary.yaml" = "summary.yaml" /\
  strip_extension (basename "flows/summary.yaml") = "summary".
Proof. split; reflexivity. Qed.

Lemma flow_name_json_witness : flow_name "flows/summary.json" = "summary".
Proof.
  apply (proj1 (flow_name_json "flows/summary.json") "summary"); reflexivity.
Defined.

(** The Prompt node of [anonymous_first] has a template, and the value
    before it would stop a scan for it; no such scan is made. *)
Lemma chat_input_without_identifier_witness :
  extract_prompt (PDict (nodes_of anonymous_first)) ada = Raise no_node_error.
Proof.
  apply (chat_input_without_identifier (nodes_of anonymous_first) []
           [PInt 5; prompt_node "Summarise {name}"] anonymous_chat_input);
    reflexivity.
Defined.

(** ** The loader *)

(** C4 fails on the code: the flat document comes back with its key
    [name], and so differs from what the nested document gives. *)
Lemma load_workflow_counterexample :
  load_workflow RefCodec.loads RefCodec.error_text sample_files "flows/flat.json"
  = Ok flat_document /\
  load_workflow RefCodec.loads RefCodec.error_text sample_files "flows/nested.json"
  = Ok (PDict [("nodes", PList [input_node "Say {word}"]); ("edges", PList [])]) /\
  workflow_nodes flat_document <> None /\
  dict_lookup "name" [("name", PStr "demo"); ("nodes", PList [input_node "Say {word}"]);
                      ("edges", PList [])] = Some (PStr "demo").
Proof. repeat split; try (vm_compute; reflexivity). discriminate. Qed.

Lemma load_workflow_shape_witness :
  exists text root nodes edges,
    sample_files !! "flows/flat.json" = Some text /\
    RefCodec.loads text = Some (PDict root) /\
    workflow_nodes flat_document = Some (PList nodes) /\
    workflow_edges flat_document = Some (PList edges) /\
    ((exists data,
        dict_lookup "data" root = Some (PDict data) /\
        dict_lookup "nodes" data = Some (PList nodes) /\
        dict_lookup "edges" data = Some (PList edges) /\
        flat_document = PDict [("nodes", PList nodes); ("edges", PList edges)])
     \/
     (dict_lookup "data" root = None /\
      dict_lookup "nodes" root = Some (PList nodes) /\
      dict_lookup "edges" root = Some (PList edges) /\
      flat_document = PDict root)).
Proof.
  apply (load_workflow_shape RefCodec.loads RefCodec.error_text sample_files
           "flows/flat.json" flat_document).
  vm_compute. reflexivity.
Defined.

(** ** The generation client *)

(** C6 fails on the code: a response with status 200 whose body is a JSON
    array makes [run_ollama] raise. *)
Lemma generation_outcome_counterexample :
  fst (run_ollama (sample_env (Responded 200 "[]" (inl (PList [])))) (PStr "Say hi")
         sample_world)
  = Threw (AttributeError "list" "get").
Proof. reflexivity. Qed.

Lemma generation_outcome_witness :
  fst (run_ollama
         (sample_env (Responded 200 "n/a" (inl (PDict [("response", PStr "hi there")]))))
         (PStr "Say hi") sample_world)
  = Returned (PStr "hi there").
Proof.
  apply (proj1 (proj2 (proj2
           (generation_outcome
              (sample_env (Responded 200 "n/a" (inl (PDict [("response", PStr "hi there")]))))
              (PStr "Say hi") sample_world))) "n/a" [("response", PStr "hi there")]).
  reflexivity.
Defined.

(** ** The ledger *)

Lemma ledger_append_witness :
  exists w1 w2,
    append_execution_log RefCodec.loads RefCodec.dumps
      (sample_record "Success" (PStr "hi there") "") ledger_path sample_world
    = (Returned tt, w1) /\
    append_execution_log RefCodec.loads RefCodec.dumps
      (sample_record "Error" (PStr "") "boom") ledger_path w1
    = (Returned tt, w2) /\
    files w2 !! ledger_path
    = Some (RefCodec.dumps (Some 2%nat)
              (PList [sample_record "Success" (PStr "hi there") "";
                      sample_record "Error" (PStr "") "boom"])).
Proof.
  apply (proj1 (proj2 (ledger_append RefCodec.loads RefCodec.dumps ledger_path sample_world))
           (sample_record "Success" (PStr "hi there") "")
           (sample_record "Error" (PStr "") "boom"));
    vm_compute; reflexivity.
Defined.

(** ** The runner *)


(** The same run with a backend that refuses the connection. *)
Example runner_records_failure :
  let res := sample_main (TransportFailure "Connection refused") in
  let r := sample_record "Error" (PStr "") "Ollama connection error: Connection refused" in
  fst res = 1 /\
  files (snd res) !! ledger_path = Some (RefCodec.dumps (Some 2%nat) (PList [r])) /\
  last (stdout (snd res)) = Some (RefCodec.dumps None r).
Proof. vm_compute. repeat split; reflexivity. Qed.

(** * Further properties *)

(** ** The loader, beyond the shape of its result *)

(** A document that has a [data] key is never read in the flat form:
    unless the value under [data] has the nested form, the loader's
    analysis fails with a [ValueError], whatever the root holds. *)
Theorem data_key_takes_over (root : list (string * pyval)) (d : pyval) :
  dict_lookup "data" root = Some d ->
  nested_form d = false ->
  exists msg, normalize_workflow (PDict root) = Raise (ValueError msg).
Proof.
  intros Hd Hform. unfold normalize_workflow. rewrite Hd.
  destruct d as [| | | | | |data]; try (eexists; reflexivity).
  cbn [nested_form] in Hform.
  destruct (dict_lookup "nodes" data) as [nodes|]; [| eexists; reflexivity].
  destruct (dict_lookup "edges" data) as [edges|]; [| eexists; reflexivity].
  rewrite Hform. eexists; reflexivity.
Qed.

Lemma data_key_takes_over_witness :
  exists msg,
    normalize_workflow
      (PDict [("data", PList []); ("nodes", PList [input_node "Say {word}"]);
              ("edges", PList [])])
    = Raise (ValueError msg).
Proof.
  apply (data_key_takes_over _ (PList [])); reflexivity.
Defined.

(** What the analysis returns is in the flat form and is returned again
    as it is: normalising twice is normalising once. *)
Theorem normalize_workflow_idempotent (flow w : pyval) :
  normalize_workflow flow = Ok w -> normalize_workflow w = Ok w.
Proof.
  intros H. apply normalize_workflow_ok in H as (root & nodes & edges & -> & Hform).
  destruct Hform as [(data & _ & _ & _ & ->) | (Hdata & Hn & He & ->)].
  - reflexivity.
  - unfold normalize_workflow. now rewrite Hdata, Hn, He.
Qed.

Lemma normalize_workflow_idempotent_witness :
  normalize_workflow (PDict [("nodes", PList [input_node "Say {word}"]); ("edges", PList [])])
  = Ok (PDict [("nodes", PList [input_node "Say {word}"]); ("edges", PList [])]).
Proof.
  apply (normalize_workflow_idempotent nested_document). reflexivity.
Defined.

(** ** The resolver, beyond its two strategies *)

Lemma py_get_raise (v : pyval) (k : string) (d : pyval) (e : exn) :
  py_get v k d = Raise e -> e = AttributeError (type_name v) "get".
Proof.
  destruct v as [| | | | | |fields]; cbn; try (now intros [= <-]).
  destruct (dict_lookup k fields); discriminate.
Qed.

Lemma py_getitem_raise (v : pyval) (k : string) (e : exn) :
  py_getitem v k = Raise e -> is_value_error e = false.
Proof.
  destruct v as [| | | | | |fields]; cbn; try (now intros [= <-]).
  destruct (dict_lookup k fields); [discriminate | now intros [= <-]].
Qed.

Lemma py_contains_raise (k : string) (v : pyval) (e : exn) :
  py_contains k v = Raise e -> is_value_error e = false.
Proof. destruct v; cbn; try discriminate; now intros [= <-]. Qed.

Lemma substitute_raise (template input_data : pyval) (e : exn) :
  substitute template input_data = Raise e ->
  e = AttributeError (type_name template) "replace" /\ is_str template = false.
Proof.
  destruct input_data as [| | | | | |items]; try discriminate.
  cbn [substitute]. destruct template as [| | | | s| |];
    try (destruct items as [|[key value] rest]; cbn; [discriminate | now intros [= <-]]).
  now rewrite substitute_items_text.
Qed.

Lemma scan_input_node_raise (nodes : list pyval) (input_data : pyval) (e : exn) :
  scan_input_node nodes input_data = Raise e -> is_value_error e = false.
Proof.
  induction nodes as [|node rest IH]; [discriminate |].
  cbn [scan_input_node]. destruct node as [| | | | | |fields]; try exact IH.
  unfold is_input_node.
  destruct (dict_lookup "type" fields) as [ty|]; [| exact IH].
  destruct (eq_str ty "InputNode"); [| exact IH].
  destruct (dict_lookup "data" fields) as [data|] eqn:Hdata; [| exact IH].
  destruct (py_contains "input" data) as [[|]|ex] eqn:Hc; cbn [rbind].
  - cbn [py_getitem]. rewrite Hdata. cbn [rbind].
    destruct (py_getitem data "input") as [template|ex] eqn:Hget; cbn [rbind].
    + destruct (substitute template input_data) as [p|ex] eqn:Hs; cbn [rbind];
        [discriminate |].
      intros [= <-]. now apply substitute_raise in Hs as [-> _].
    + intros [= <-]. now apply py_getitem_raise in Hget.
  - exact IH.
  - intros [= <-]. now apply py_contains_raise in Hc.
Qed.

Lemma node_attr_raise (node : pyval) (k : string) (e : exn) :
  node_attr node k = Raise e -> is_value_error e = false.
Proof.
  unfold node_attr, py_or.
  destruct (py_get node k PNone) as [top|ex] eqn:Htop; cbn [rbind].
  - destruct (truthy top); [discriminate |].
    destruct (py_get node "data" (PDict [])) as [data|ex] eqn:Hdata; cbn [rbind].
    + intros H. now apply py_get_raise in H as ->.
    + intros [= <-]. now apply py_get_raise in Hdata as ->.
  - intros [= <-]. now apply py_get_raise in Htop as ->.
Qed.

Lemma node_matches_raise (tag : string) (node : pyval) (e : exn) :
  node_matches tag node = Raise e -> is_value_error e = false.
Proof.
  unfold node_matches.
  destruct (node_attr node "id") as [i|ex] eqn:Hi; cbn [rbind].
  - destruct (node_attr node "type") as [t|ex] eqn:Ht; cbn [rbind]; [discriminate |].
    intros [= <-]. now apply node_attr_raise in Ht.
  - intros [= <-]. now apply node_attr_raise in Hi.
Qed.

Lemma find_chat_input_raise (nodes : list pyval) (e : exn) :
  find_chat_input nodes = Raise e -> is_value_error e = false.
Proof.
  induction nodes as [|node rest IH]; [discriminate |].
  cbn [find_chat_input].
  destruct (node_matches "ChatInput" node) as [[i [|]]|ex] eqn:Hm; cbn [rbind snd fst].
  - discriminate.
  - exact IH.
  - intros [= <-]. now apply node_matches_raise in Hm.
Qed.

Lemma find_prompt_node_raise (nodes : list pyval) (e : exn) :
  find_prompt_node nodes = Raise e -> is_value_error e = false.
Proof.
  induction nodes as [|node rest IH]; [discriminate |].
  cbn [find_prompt_node].
  destruct (node_matches "Prompt" node) as [[i [|]]|ex] eqn:Hm; cbn [rbind snd fst].
  - discriminate.
  - exact IH.
  - intros [= <-]. now apply node_matches_raise in Hm.
Qed.

Lemma prompt_template_raise (p : pyval) (e : exn) :
  prompt_template p = Raise e -> is_value_error e = false.
Proof.
  unfold prompt_template.
  destruct (perform data <- py_getitem p "data";
            perform inner <- py_getitem data "node";
            perform template <- py_getitem inner "template";
            py_getitem template "value"); [discriminate |].
  destruct (py_get p "data" (PDict [])) as [data|ex] eqn:Hd; cbn [rbind].
  - destruct (py_get data "template" (PDict [])) as [t|ex] eqn:Ht; cbn [rbind].
    + intros H. now apply py_get_raise in H as ->.
    + intros [= <-]. now apply py_get_raise in Ht as ->.
  - intros [= <-]. now apply py_get_raise in Hd as ->.
Qed.

Lemma langflow_prompt_raise (nodes : list pyval) (input_data : pyval) (e : exn) :
  langflow_prompt nodes input_data = Raise e ->
  is_value_error e = false \/ e = no_node_error.
Proof.
  unfold langflow_prompt.
  destruct (find_chat_input nodes) as [id|ex] eqn:Hid; cbn [rbind].
  - destruct (truthy id); [| intros [= <-]; now right].
    destruct (find_prompt_node nodes) as [p|ex] eqn:Hp; cbn [rbind].
    + destruct (truthy p); [| intros [= <-]; now right].
      destruct (prompt_template p) as [t|ex] eqn:Ht; cbn [rbind].
      * destruct (truthy t); [| intros [= <-]; now right].
        intros H. left. now apply substitute_raise in H as [-> _].
      * intros [= <-]. left. now apply prompt_template_raise in Ht.
    + intros [= <-]. left. now apply find_prompt_node_raise in Hp.
  - intros [= <-]. left. now apply find_chat_input_raise in Hid.
Qed.

Lemma invalid_flow_raised (flow input_data : pyval) :
  extract_prompt flow input_data = Raise invalid_flow_error ->
  has_node_list flow = false.
Proof.
  unfold extract_prompt, has_node_list, workflow_nodes.
  destruct flow as [| | | | | |fields]; try reflexivity.
  destruct (dict_lookup "nodes" fields) as [nodes|]; [| reflexivity].
  destruct nodes as [| | | | |nodes|]; try reflexivity.
  cbn [is_list]. intros H. exfalso.
  destruct (scan_input_node nodes input_data) as [[p|]|ex] eqn:Hs; cbn [rbind] in H.
  - discriminate.
  - apply langflow_prompt_raise in H as [H | H]; discriminate.
  - injection H as ->. now apply scan_input_node_raise in Hs.
Qed.

(** The structure error of [extract_prompt] is raised exactly for a flow
    that is not a mapping with a list under [nodes]: no later step of the
    resolver raises it. *)
Theorem invalid_flow_exactly (flow input_data : pyval) :
  extract_prompt flow input_data = Raise invalid_flow_error <->
  has_node_list flow = false.
Proof.
  split; [apply invalid_flow_raised |].
  unfold extract_prompt, has_node_list, workflow_nodes.
  destruct flow as [| | | | | |fields]; try reflexivity.
  destruct (dict_lookup "nodes" fields) as [nodes|]; [| reflexivity].
  destruct nodes as [| | | | |nodes|]; try reflexivity. discriminate.
Qed.

Lemma invalid_flow_exactly_witness :
  extract_prompt (PDict [("nodes", PStr "n1"); ("edges", PList [])]) ada
  = Raise invalid_flow_error.
Proof.
  apply (proj2 (invalid_flow_exactly (PDict [("nodes", PStr "n1"); ("edges", PList [])]) ada)).
  reflexivity.
Defined.

Lemma find_chat_input_none (nodes : list pyval) :
  forallb (misses "ChatInput") nodes = true -> find_chat_input nodes = Ok PNone.
Proof.
  intros H. rewrite <- (app_nil_r nodes). now rewrite find_chat_input_skip.
Qed.

Lemma find_prompt_node_none (nodes : list pyval) :
  forallb (misses "Prompt") nodes = true -> find_prompt_node nodes = Ok PNone.
Proof.
  induction nodes as [|m rest IH]; [reflexivity |].
  cbn [forallb find_prompt_node]. intros [Hm Hrest]%andb_true_iff.
  unfold misses in Hm.
  destruct (node_matches "Prompt" m) as [[id [|]]|]; try discriminate.
  cbn [rbind snd]. now apply IH.
Qed.

(** Without a source for the prompt the resolver fails with the
    no-matching-node error: when the first strategy passes over every
    node and either no node matches the ChatInput search, or a ChatInput
    node with an identifier is found and no node matches the Prompt
    search. *)
Theorem no_prompt_source (fields : list (string * pyval)) (nodes : list pyval)
    (input_data : pyval) :
  dict_lookup "nodes" fields = Some (PList nodes) ->
  forallb passed_over nodes = true ->
  forallb (misses "ChatInput") nodes = true
  \/ (exists id, find_chat_input nodes = Ok id /\ truthy id = true /\
                 forallb (misses "Prompt") nodes = true) ->
  extract_prompt (PDict fields) input_data = Raise no_node_error.
Proof.
  intros Hnodes Hpass Hcases. unfold extract_prompt. rewrite Hnodes.
  rewrite scan_input_node_none by exact Hpass. cbn [rbind]. unfold langflow_prompt.
  destruct Hcases as [Hchat | (id & Hid & Htrue & Hprompt)].
  - now rewrite find_chat_input_none.
  - rewrite Hid. cbn [rbind]. rewrite Htrue.
    now rewrite find_prompt_node_none.
Qed.

Lemma no_prompt_source_witness :
  extract_prompt (PDict (nodes_of [chat_input_node; tag_under_data])) ada
  = Raise no_node_error.
Proof.
  apply (no_prompt_source _ [chat_input_node; tag_under_data]);
    [reflexivity | reflexivity |].
  right. exists (PStr "ChatInput-a1b2"). repeat split; reflexivity.
Defined.

(** The first loop steps over a node that is not a mapping; the second
    one does not.  When the first strategy finds nothing and the nodes
    before such a value do not match the ChatInput search, the resolver
    raises the [AttributeError] of the missing method [get], not the
    no-matching-node error. *)
Theorem node_that_is_no_mapping (fields : list (string * pyval))
    (pre post : list pyval) (v input_data : pyval) :
  dict_lookup "nodes" fields = Some (PList (pre ++ v :: post)) ->
  is_dict v = false ->
  forallb passed_over (pre ++ v :: post) = true ->
  forallb (misses "ChatInput") pre = true ->
  extract_prompt (PDict fields) input_data = Raise (AttributeError (type_name v) "get").
Proof.
  intros Hnodes Hv Hpass Hpre. unfold extract_prompt. rewrite Hnodes.
  rewrite scan_input_node_none by exact Hpass. cbn [rbind]. unfold langflow_prompt.
  rewrite find_chat_input_skip by exact Hpre.
  cbn [find_chat_input]. unfold node_matches, node_attr.
  destruct v; try discriminate; reflexivity.
Qed.

Lemma node_that_is_no_mapping_witness :
  extract_prompt (PDict (nodes_of [tag_under_data; PStr "ChatInput-1"; chat_input_node])) ada
  = Raise (AttributeError "str" "get").
Proof.
  apply (node_that_is_no_mapping _ [tag_under_data] [chat_input_node] (PStr "ChatInput-1"));
    reflexivity.
Defined.

(** The template of a Prompt node.  A value found at
    [data.node.template.value] is the template, whatever it is and
    whatever [data.template] holds: the second path is taken only when
    the first one cannot be followed.  For a node whose [data] mapping
    has no [node] key, the template is the [value] of the mapping
    [data.template], and [None] when [template] or [value] is missing. *)
Theorem prompt_template_paths (node data : list (string * pyval)) :
  dict_lookup "data" node = Some (PDict data) ->
  (forall inner template v,
     dict_lookup "node" data = Some (PDict inner) ->
     dict_lookup "template" inner = Some (PDict template) ->
     dict_lookup "value" template = Some v ->
     prompt_template (PDict node) = Ok v) /\
  (dict_lookup "node" data = None ->
   (forall template,
      dict_lookup "template" data = Some (PDict template) ->
      prompt_template (PDict node) =
      Ok match dict_lookup "value" template with Some v => v | None => PNone end) /\
   (dict_lookup "template" data = None -> prompt_template (PDict node) = Ok PNone)).
Proof.
  intros Hdata. unfold prompt_template. cbn [py_getitem py_get]. rewrite Hdata.
  cbn [rbind py_getitem py_get]. split.
  - intros inner template v Hnode Htemplate Hvalue.
    rewrite Hnode. cbn [rbind py_getitem]. rewrite Htemplate. cbn [rbind py_getitem].
    now rewrite Hvalue.
  - intros Hnode. rewrite Hnode. split.
    + intros template Htemplate. rewrite Htemplate. cbn [rbind py_get].
      now destruct (dict_lookup "value" template).
    + intros Htemplate. now rewrite Htemplate.
Qed.

(** An empty template under [data.node] wins over the one under
    [data.template]. *)
Lemma prompt_template_paths_witness :
  prompt_template
    (PDict [("data", PDict [("node", PDict [("template", PDict [("value", PStr "")])]);
                            ("template", PDict [("value", PStr "Tell {name}")])])])
  = Ok (PStr "").
Proof.
  apply (proj1 (prompt_template_paths
                  [("data", PDict [("node", PDict [("template", PDict [("value", PStr "")])]);
                                   ("template", PDict [("value", PStr "Tell {name}")])])]
                  [("node", PDict [("template", PDict [("value", PStr "")])]);
                   ("template", PDict [("value", PStr "Tell {name}")])]
                  eq_refl)
           [("template", PDict [("value", PStr "")])] [("value", PStr "")]);
    reflexivity.
Defined.

(** ** Substitution, beyond one payload *)

Lemma substitute_items_app (a b : list (string * pyval)) (t : pyval) :
  substitute_items (a ++ b) t =
  perform r <- substitute_items a t; substitute_items b r.
Proof.
  revert t. induction a as [|[key value] a IH]; intros t; [reflexivity |].
  cbn [app substitute_items].
  destruct (py_replace t ("{" +:+ key +:+ "}") (py_str value)); cbn [rbind];
    [apply IH | reflexivity].
Qed.

(** Substituting a payload that is two payloads one after the other is
    substituting the first and then, in its result, the second: a later
    key sees what the earlier keys have written. *)
Theorem substitute_in_sequence (a b : list (string * pyval)) (template : pyval) :
  substitute template (PDict (a ++ b)) =
  perform r <- substitute template (PDict a); substitute r (PDict b).
Proof. apply substitute_items_app. Qed.

(** A payload none of whose keys has a placeholder in the template
    leaves the template as it is. *)
Theorem substitute_unused_keys (t : string) (items : list (string * pyval)) :
  forallb (unused_key t) items = true ->
  substitute (PStr t) (PDict items) = Ok (PStr t).
Proof.
  cbn [substitute]. induction items as [|[key value] rest IH]; [reflexivity |].
  cbn [forallb]. intros [Hkey Hrest]%andb_true_iff.
  cbn [substitute_items py_replace rbind].
  unfold unused_key in Hkey. cbn [fst] in Hkey. apply negb_true_iff in Hkey.
  rewrite str_replace_absent; [now apply IH | discriminate | exact Hkey].
Qed.

Lemma substitute_unused_keys_witness :
  substitute (PStr "Say {word}") (PDict [("name", PStr "Ada"); ("age", PInt 30)])
  = Ok (PStr "Say {word}").
Proof. apply substitute_unused_keys. reflexivity. Defined.

(** An [input] field that is not a string.  With a mapping of at least
    one pair as payload the resolver raises the [AttributeError] of the
    missing method [replace]; with an empty mapping it returns the field
    as it is, a value that is not a string. *)
Theorem template_that_is_no_string (fields : list (string * pyval))
    (pre post : list pyval) (node template : pyval) :
  dict_lookup "nodes" fields = Some (PList (pre ++ node :: post)) ->
  forallb passed_over pre = true ->
  direct_input node = Some template ->
  is_str template = false ->
  (forall key value rest,
     extract_prompt (PDict fields) (PDict ((key, value) :: rest))
     = Raise (AttributeError (type_name template) "replace")) /\
  extract_prompt (PDict fields) (PDict []) = Ok template.
Proof.
  intros Hnodes Hpre Hnode Hstr. split.
  - intros key value rest.
    rewrite (resolution_priority_aux fields pre post node template) by assumption.
    destruct template; try discriminate; reflexivity.
  - now rewrite (resolution_priority_aux fields pre post node template) by assumption.
Qed.

Lemma template_that_is_no_string_witness :
  extract_prompt
    (PDict (nodes_of [PDict [("type", PStr "InputNode"); ("data", PDict [("input", PInt 42)])]]))
    ada
  = Raise (AttributeError "int" "replace").
Proof.
  apply (proj1 (template_that_is_no_string
                  (nodes_of [PDict [("type", PStr "InputNode");
                                    ("data", PDict [("input", PInt 42)])]])
                  [] [] _ (PInt 42) eq_refl eq_refl eq_refl eq_refl)).
Defined.

(** ** The workflow name and the command line *)

Lemma has_char_append (c : ascii) (a b : string) :
  has_char c (a +:+ b) = has_char c a || has_char c b.
Proof.
  unfold has_char. induction a as [|x a IH]; [reflexivity |].
  cbn. rewrite IH. now rewrite orb_assoc.
Qed.

Lemma basename_plain (name : string) :
  has_char "/" name = false -> basename name = name.
Proof. destruct name as [|c name]; [reflexivity |]. cbn [basename]. now intros ->. Qed.

Lemma basename_dir (dir name : string) :
  has_char "/" name = false -> basename (dir +:+ "/" +:+ name) = name.
Proof.
  intros Hname. induction dir as [|c dir IH].
  - change ("" +:+ "/" +:+ name) with (String "/" name). cbn [basename].
    replace (has_char "/" (String "/" name)) with true by reflexivity.
    now apply basename_plain.
  - change (String c dir +:+ "/" +:+ name) with (String c (dir +:+ "/" +:+ name)).
    cbn [basename].
    change (String c (dir +:+ "/" +:+ name)) with (String c dir +:+ "/" +:+ name).
    rewrite !has_char_append.
    replace (has_char "/" "/") with true by reflexivity.
    cbn [orb]. rewrite orb_true_r. exact IH.
Qed.

(** The workflow name does not depend on the directory of the file. *)
Theorem flow_name_of_directory (dir name : string) :
  has_char "/" name = false ->
  flow_name (dir +:+ "/" +:+ name) = flow_name name.
Proof.
  intros H. unfold flow_name. now rewrite basename_dir, basename_plain.
Qed.

Lemma flow_name_of_directory_witness :
  flow_name ("/srv/flows" +:+ "/" +:+ "summary.json") = flow_name "summary.json".
Proof. apply flow_name_of_directory. reflexivity. Defined.

(** ** The runner, beyond its two records *)

Section FurtherRunnerProperties.

Variable json_loads : string -> option pyval.
Variable json_error : string -> string.
Variable json_dumps : option nat -> pyval -> string.
Variable isoformat : Z -> string.
Variable total_seconds : Z -> string.

Local Abbreviation load := (load_workflow json_loads json_error).
Local Abbreviation append_log := (append_execution_log json_loads json_dumps).
Local Abbreviation run_execute :=
  (execute json_loads json_error json_dumps isoformat total_seconds).
Local Abbreviation run_main :=
  (main json_loads json_error json_dumps isoformat total_seconds).

(** Once the text of the file has decoded, [load_workflow] returns
    exactly for a document in the nested or in the flat form, and for
    every other document it raises a [ValueError], no other exception. *)
Theorem decoded_document_outcome (fs : gmap string string) (path text : string)
    (flow : pyval) :
  fs !! path = Some text -> json_loads text = Some flow ->
  (accepted_form flow = true -> exists w, load fs path = Ok w) /\
  (accepted_form flow = false -> exists msg, load fs path = Raise (ValueError msg)).
Proof.
  intros Hfile Hparse. unfold load_workflow, read_json. rewrite Hfile, Hparse.
  cbn [rbind]. unfold accepted_form, nested_form, normalize_workflow.
  destruct flow as [| | | | | |root];
    try (split; [discriminate | intros _; eexists; reflexivity]).
  destruct (dict_lookup "data" root) as [d|].
  - destruct d as [| | | | | |data];
      try (split; [discriminate | intros _; eexists; reflexivity]).
    destruct (dict_lookup "nodes" data) as [nodes|];
      [| split; [discriminate | intros _; eexists; reflexivity]].
    destruct (dict_lookup "edges" data) as [edges|];
      [| split; [discriminate | intros _; eexists; reflexivity]].
    destruct (is_list nodes && is_list edges);
      (split; [intros H | intros H]; try discriminate; eexists; reflexivity).
  - destruct (dict_lookup "nodes" root) as [nodes|];
      [| split; [discriminate | intros _; eexists; reflexivity]].
    destruct (dict_lookup "edges" root) as [edges|];
      [| split; [discriminate | intros _; eexists; reflexivity]].
    destruct (is_list nodes && is_list edges);
      (split; [intros H | intros H]; try discriminate; eexists; reflexivity).
Qed.

(** A workflow that [load_workflow] has returned passes the structure
    check of [extract_prompt], and its node count can be taken. *)
Theorem loaded_flow_is_accepted (fs : gmap string string) (path : string)
    (flow input_data : pyval) :
  load fs path = Ok flow ->
  extract_prompt flow input_data <> Raise invalid_flow_error /\
  exists nodes, workflow_nodes flow = Some (PList nodes) /\
                node_count flow = Ok (Z.of_nat (List.length nodes)).
Proof.
  intros H.
  apply load_workflow_ok in H as (text & doc & _ & _ & Hnorm).
  apply normalize_workflow_ok in Hnorm as (root & nodes & edges & -> & Hform).
  assert (Hn : exists fields, flow = PDict fields /\
                              dict_lookup "nodes" fields = Some (PList nodes)).
  { destruct Hform as [(data & _ & _ & _ & ->) | (_ & Hn & _ & ->)]; eauto. }
  destruct Hn as (fields & -> & Hn). split.
  - intros Hbad. apply invalid_flow_raised in Hbad.
    unfold has_node_list, workflow_nodes in Hbad. now rewrite Hn in Hbad.
  - exists nodes. split; [exact Hn |]. unfold node_count. cbn [py_getitem].
    now rewrite Hn.
Qed.

(** ** The ledger, call after call *)

(** A call changes nothing but the file at its path. *)
Lemma append_execution_log_frame (entry : pyval) (path : string) (w : world) :
  let res := append_log entry path w in
  stdout (snd res) = stdout w /\ sent (snd res) = sent w /\ ticks (snd res) = ticks w /\
  (forall other, other <> path -> files (snd res) !! other = files w !! other) /\
  (fst res = Returned tt \/ exists ex, fst res = Threw ex).
Proof.
  cbv zeta. unfold append_execution_log, bind, get_files, put_file, ret, lift, set_files.
  destruct (files w !! path) as [text|] eqn:Hfile; cbn.
  - rewrite Hfile.
    destruct (match json_loads text with Some d => d | None => PList [] end);
      cbn; repeat split; eauto; intros other Hne; now rewrite ?lookup_insert_ne.
  - rewrite lookup_insert_eq.
    destruct (match json_loads (json_dumps None (PList [])) with
              | Some d => d | None => PList [] end);
      cbn; repeat split; eauto; intros other Hne; now rewrite ?lookup_insert_ne.
Qed.

(** [append_execution_log] touches one file: after a call, returned or
    not, every other file, the output and the requests are as before. *)
Theorem append_touches_one_file (entry : pyval) (path : string) (w : world) :
  let w' := snd (append_log entry path w) in
  (forall other, other <> path -> files w' !! other = files w !! other) /\
  stdout w' = stdout w /\ sent w' = sent w.
Proof.
  cbv zeta. destruct (append_execution_log_frame entry path w) as (Ho & Hs & _ & Hf & _).
  auto.
Qed.

(** A ledger file that holds JSON other than an array stops the call:
    it raises the [AttributeError] of the missing method [append] and
    leaves the file, and the rest of the world, as they were. *)
Lemma append_execution_log_broken (entry : pyval) (path text : string) (d : pyval)
    (w : world) :
  files w !! path = Some text -> json_loads text = Some d -> is_list d = false ->
  append_log entry path w = (Threw (AttributeError (type_name d) "append"), w).
Proof.
  intros Hfile Hparse Hd.
  unfold append_execution_log, bind, get_files, put_file, ret, lift.
  rewrite Hfile. cbn. rewrite Hfile, Hparse.
  destruct d; try discriminate; reflexivity.
Qed.

Lemma run_each_step {A : Type} (f : A -> prog unit) (x : A) (rest : list A)
    (w w1 : world) :
  f x w = (Returned tt, w1) -> run_each f (x :: rest) w = run_each f rest w1.
Proof. intros H. cbn [run_each]. unfold bind. now rewrite H. Qed.

(** Calls in a row keep every record, in the order of the calls: from a
    ledger of [rows], appending [entries] one by one returns each time
    and leaves a ledger of [rows ++ entries], as long as the codec reads
    back each array it writes on the way. *)
Theorem appends_accumulate (path : string) (entries rows : list pyval) (w : world) :
  ledger_rows json_loads (files w) path = Some rows ->
  (files w !! path = None -> round_trips json_loads json_dumps None (PList [])) ->
  (forall k, round_trips json_loads json_dumps (Some 2%nat)
               (PList (rows ++ firstn (S k) entries))) ->
  let res := run_each (fun entry => append_log entry path) entries w in
  fst res = Returned tt /\
  ledger_rows json_loads (files (snd res)) path = Some (rows ++ entries).
Proof.
  revert rows w. induction entries as [|entry rest IH]; intros rows w Hrows Hempty Hrt.
  - cbn. now rewrite app_nil_r.
  - cbv zeta.
    rewrite (run_each_step _ entry rest w _
               (append_execution_log_rows json_loads json_dumps entry path w rows
                  Hrows Hempty)).
    set (w1 := set_files _ w).
    assert (Hrows1 : ledger_rows json_loads (files w1) path = Some (rows ++ [entry])).
    { unfold ledger_rows, w1. cbn. rewrite lookup_insert_eq.
      pose proof (Hrt 0%nat) as H0.
      change (firstn 1 (entry :: rest)) with [entry] in H0.
      unfold round_trips in H0. now rewrite H0. }
    destruct (IH (rows ++ [entry]) w1 Hrows1) as [Hret Hfinal].
    + unfold w1. cbn. rewrite lookup_insert_eq. discriminate.
    + intros k. specialize (Hrt (S k)).
      change (firstn (S (S k)) (entry :: rest)) with (entry :: firstn (S k) rest) in Hrt.
      now rewrite <- app_assoc.
    + split; [exact Hret |]. rewrite Hfinal. now rewrite <- app_assoc.
Qed.

(** A ledger file that holds JSON other than an array stops the call:
    it raises the [AttributeError] of the missing method [append] and
    leaves the file, and the rest of the world, as they were. *)
Theorem append_to_ledger_that_is_no_array (entry : pyval) (path text : string)
    (d : pyval) (w : world) :
  files w !! path = Some text -> json_loads text = Some d -> is_list d = false ->
  append_log entry path w = (Threw (AttributeError (type_name d) "append"), w).
Proof. apply append_execution_log_broken. Qed.

(** ** The runner, path by path *)

Ltac append_cases :=
  match goal with
  | |- context [append_execution_log json_loads json_dumps ?x ?p ?W] =>
      let F := fresh "F" in
      let o := fresh "o" in
      let w' := fresh "w'" in
      pose proof (append_execution_log_frame x p W) as F; cbv zeta in F;
      destruct (append_execution_log json_loads json_dumps x p W) as [o w'];
      cbn [fst snd files stdout sent ticks] in F;
      let ex := fresh "ex" in
      destruct F as (_ & ? & _ & ? & [-> | [ex ->]])
  end.

Ltac frame_done :=
  repeat split;
  [ congruence
  | let other := fresh "other" in
    let Hne := fresh "Hne" in
    intros other Hne;
    repeat match goal with
           | H : forall o : string, o <> ledger_path -> _ |- _ =>
               rewrite (H other Hne); clear H
           end;
    reflexivity
  | eauto 6 ].

(** What [execute] does whatever the ledger holds: the request it sends,
    the files it leaves alone, and the three ways it ends. *)
Lemma execute_frame (e : env) (flow_path : string) (input_data : pyval)
    (name execution_id : string) (start_time : Z) (w : world) :
  let res := run_execute e flow_path input_data name execution_id start_time w in
  sent (snd res) =
    match resolved json_loads json_error (files w) flow_path input_data with
    | Ok prompt => sent w ++ [generate_request e prompt]
    | Raise _ => sent w
    end /\
  (forall other, other <> ledger_path -> files (snd res) !! other = files w !! other) /\
  ((fst res = Returned tt /\
    exists output, stages json_loads json_error e (files w) flow_path input_data = Ok output)
   \/ fst res = Exited 1 \/ exists ex, fst res = Threw ex).
Proof.
  cbv zeta.
  unfold resolved, stages, execute, try_except, bind, get_files, lift, now, print, sys_exit.
  destruct (load_workflow json_loads json_error (files w) flow_path) as [flow|ex0] eqn:Hload.
  - destruct (node_count_loaded _ _ _ _ _ Hload) as [n ->].
    cbn [rbind].
    destruct (extract_prompt flow input_data) as [prompt|ex0].
    + cbn [rbind]. rewrite run_ollama_result.
      destruct (read_response (backend e (generate_request e prompt))) as [output|ex0].
      * cbn -[append_execution_log String.append]. append_cases.
        -- cbn. frame_done.
        -- cbn -[append_execution_log String.append]. append_cases; cbn; frame_done.
      * cbn -[append_execution_log String.append]. append_cases; cbn; frame_done.
    + cbn -[append_execution_log String.append]. append_cases; cbn; frame_done.
  - cbn -[append_execution_log String.append]. append_cases; cbn; frame_done.
Qed.

Lemma execute_broken_ledger (e : env) (flow_path : string) (input_data : pyval)
    (name execution_id : string) (start_time : Z) (w : world) (text : string) (d : pyval) :
  files w !! ledger_path = Some text -> json_loads text = Some d -> is_list d = false ->
  let res := run_execute e flow_path input_data name execution_id start_time w in
  fst res = Threw (AttributeError (type_name d) "append") /\ files (snd res) = files w.
Proof.
  intros Hfile Hparse Hd. cbv zeta.
  unfold execute, try_except, bind, get_files, lift, now, print, sys_exit.
  destruct (load_workflow json_loads json_error (files w) flow_path) as [flow|ex0] eqn:Hload.
  - destruct (node_count_loaded _ _ _ _ _ Hload) as [n ->].
    destruct (extract_prompt flow input_data) as [prompt|ex0].
    + rewrite run_ollama_result.
      destruct (read_response (backend e (generate_request e prompt))) as [output|ex0].
      * cbn -[append_execution_log String.append].
        erewrite append_execution_log_broken; [| cbn; exact Hfile | exact Hparse | exact Hd].
        cbn -[append_execution_log String.append].
        erewrite append_execution_log_broken; [| cbn; exact Hfile | exact Hparse | exact Hd].
        cbn. split; reflexivity.
      * cbn -[append_execution_log String.append].
        erewrite append_execution_log_broken; [| cbn; exact Hfile | exact Hparse | exact Hd].
        cbn. split; reflexivity.
    + cbn -[append_execution_log String.append].
      erewrite append_execution_log_broken; [| cbn; exact Hfile | exact Hparse | exact Hd].
      cbn. split; reflexivity.
  - cbn -[append_execution_log String.append].
    erewrite append_execution_log_broken; [| cbn; exact Hfile | exact Hparse | exact Hd].
    cbn. split; reflexivity.
Qed.

Lemma load_input_none (input_arg : string) (w : world) :
  input_payload json_loads (files w) input_arg = None ->
  exists line,
    load_input json_loads json_error (str_strip quotes input_arg) w =
    (Exited 1, {| files := files w; stdout := stdout w ++ [line];
                  sent := sent w; ticks := ticks w |}).
Proof.
  unfold input_payload, load_input, bind, get_files, read_json, print, sys_exit.
  destruct (files w !! str_strip quotes input_arg) as [text|].
  - destruct (str_endswith (str_strip quotes input_arg) ".json"); intros ->;
      eexists; reflexivity.
  - intros ->. eexists; reflexivity.
Qed.

Lemma usage_error_aux (e : env) (argv : list string) (w : world) :
  List.length argv <> 3%nat ->
  let res := run_main e argv w in
  fst res = 1 /\ files (snd res) = files w /\ sent (snd res) = sent w /\
  last (stdout (snd res)) =
    Some ("ERROR: Incorrect number of arguments. Received: "
          +:+ py_repr (PList (map PStr argv))).
Proof.
  intros Hlen. cbv zeta.
  unfold main, main_body, try_except, bind, now, print, sys_exit.
  destruct argv as [|a [|b [|c [|d rest]]]]; try (cbn in Hlen; congruence);
    cbn -[String.append py_repr]; repeat split; apply last_snoc.
Qed.

(** A command line that does not have two arguments: the runner prints
    the usage error as its last line and exits with code 1; it writes no
    file, the ledger included, and sends no request. *)
Theorem usage_error (e : env) (argv : list string) (w : world) :
  List.length argv <> 3%nat ->
  let res := run_main e argv w in
  fst res = 1 /\ files (snd res) = files w /\ sent (snd res) = sent w /\
  last (stdout (snd res)) =
    Some ("ERROR: Incorrect number of arguments. Received: "
          +:+ py_repr (PList (map PStr argv))).
Proof. apply usage_error_aux. Qed.

Lemma unreadable_payload_aux (e : env) (program flow_path input_arg : string) (w : world) :
  input_payload json_loads (files w) input_arg = None ->
  let res := run_main e [program; flow_path; input_arg] w in
  fst res = 1 /\ files (snd res) = files w /\ sent (snd res) = sent w.
Proof.
  intros Hinput. cbv zeta.
  unfold main, main_body, try_except, bind, now, print, sys_exit.
  change (String "'" (String dquote "")) with quotes.
  cbn -[load_input execute String.append str_strip flow_name].
  match goal with
  | |- context [load_input json_loads json_error _ ?W] =>
      destruct (load_input_none input_arg W Hinput) as [line ->]
  end.
  cbn. auto.
Qed.

(** A second argument that stands for no payload, a file that is not
    JSON or a text that is not JSON: the runner exits with code 1 before
    the execution starts; it writes no file, the ledger included, and
    sends no request. *)
Theorem unreadable_payload (e : env) (program flow_path input_arg : string) (w : world) :
  input_payload json_loads (files w) input_arg = None ->
  let res := run_main e [program; flow_path; input_arg] w in
  fst res = 1 /\ files (snd res) = files w /\ sent (snd res) = sent w.
Proof. apply unreadable_payload_aux. Qed.

(** A ledger that holds JSON other than an array: whether the stages
    succeed or fail, the runner records nothing, ends on the line of the
    unexpected error, the [AttributeError] of [append], and exits with
    code 1, leaving every file as it was. *)
Theorem ledger_that_is_no_array (e : env) (program flow_path input_arg : string)
    (w : world) (input_data : pyval) (text : string) (d : pyval) :
  input_payload json_loads (files w) input_arg = Some input_data ->
  files w !! ledger_path = Some text -> json_loads text = Some d -> is_list d = false ->
  let res := run_main e [program; flow_path; input_arg] w in
  fst res = 1 /\ files (snd res) = files w /\
  last (stdout (snd res)) =
    Some ("ERROR: Unexpected error in main: "
          +:+ exn_str (AttributeError (type_name d) "append")).
Proof.
  intros Hinput Hfile Hparse Hd. cbv zeta.
  rewrite (main_execute json_loads json_error json_dumps isoformat total_seconds
             e program flow_path input_arg w input_data Hinput).
  pose proof (execute_broken_ledger e flow_path input_data (flow_name flow_path) (uuid4 e)
                (clock e (S (ticks w)))
                (at_start json_dumps isoformat e program flow_path input_arg w) text d
                Hfile Hparse Hd) as H.
  cbv zeta in H.
  destruct (run_execute e flow_path input_data (flow_name flow_path) (uuid4 e)
              (clock e (S (ticks w)))
              (at_start json_dumps isoformat e program flow_path input_arg w))
    as [out w'].
  cbn [fst snd] in H. destruct H as [-> Hfiles]. cbn [fst snd files stdout].
  repeat split; [exact Hfiles | apply last_snoc].
Qed.

(** The request of a run.  With a payload read, the runner sends one
    request when loading and resolution succeed: a POST to
    [/api/generate] on the host of [OLLAMA_HOST], or on
    [http://ollama:11434] without it, with the model [tinyllama], the
    resolved prompt as [prompt], [stream] off and a timeout of 60
    seconds.  It sends no request when loading or resolution fails.
    Both hold whatever the ledger holds. *)
Theorem request_follows_resolution (e : env) (program flow_path input_arg : string)
    (w : world) (input_data : pyval) :
  input_payload json_loads (files w) input_arg = Some input_data ->
  sent (snd (run_main e [program; flow_path; input_arg] w)) =
  match resolved json_loads json_error (files w) flow_path input_data with
  | Ok prompt =>
      sent w ++
      [{| req_url :=
            match ollama_host e with
            | Some host => host
            | None => "http://ollama:11434"
            end +:+ "/api/generate";
          req_json := PDict [("model", PStr "tinyllama"); ("prompt", prompt);
                             ("stream", PBool false)];
          req_timeout := 60 |}]
  | Raise _ => sent w
  end.
Proof.
  intros Hinput.
  rewrite (main_execute json_loads json_error json_dumps isoformat total_seconds
             e program flow_path input_arg w input_data Hinput).
  pose proof (execute_frame e flow_path input_data (flow_name flow_path) (uuid4 e)
                (clock e (S (ticks w)))
                (at_start json_dumps isoformat e program flow_path input_arg w)) as H.
  cbv zeta in H. cbn [at_start files sent] in H.
  destruct (run_execute e flow_path input_data (flow_name flow_path) (uuid4 e)
              (clock e (S (ticks w)))
              (at_start json_dumps isoformat e program flow_path input_arg w))
    as [[u|ex|code] w']; cbn [fst snd] in *; destruct H as [H _]; exact H.
Qed.

(** The exit code is 0 or 1, and it is 0 only for a command line of two
    arguments whose payload was read and whose three stages succeeded. *)
Theorem exit_codes (e : env) (argv : list string) (w : world) :
  let code := fst (run_main e argv w) in
  (code = 0 \/ code = 1) /\
  (code = 0 ->
   exists program flow_path input_arg input_data output,
     argv = [program; flow_path; input_arg] /\
     input_payload json_loads (files w) input_arg = Some input_data /\
     stages json_loads json_error e (files w) flow_path input_data = Ok output).
Proof.
  cbv zeta.
  destruct (Nat.eq_dec (List.length argv) 3%nat) as [Hlen | Hlen].
  - destruct argv as [|program [|flow_path [|input_arg [|d rest]]]]; try discriminate.
    destruct (input_payload json_loads (files w) input_arg) as [input_data|] eqn:Hinput.
    + rewrite (main_execute json_loads json_error json_dumps isoformat total_seconds
                 e program flow_path input_arg w input_data Hinput).
      pose proof (execute_frame e flow_path input_data (flow_name flow_path) (uuid4 e)
                    (clock e (S (ticks w)))
                    (at_start json_dumps isoformat e program flow_path input_arg w)) as H.
      cbv zeta in H. cbn [at_start files sent] in H.
      destruct (run_execute e flow_path input_data (flow_name flow_path) (uuid4 e)
                  (clock e (S (ticks w)))
                  (at_start json_dumps isoformat e program flow_path input_arg w))
        as [out w'].
      cbn [fst snd] in H.
      destruct H as (_ & _ & [[-> [output Hout]] | [-> | [ex ->]]]); cbn [fst].
      * split; [now left |]. intros _.
        now exists program, flow_path, input_arg, input_data, output.
      * split; [now right | discriminate].
      * split; [now right | discriminate].
    + destruct (unreadable_payload_aux e program flow_path input_arg w Hinput) as [-> _].
      split; [now right | discriminate].
  - destruct (usage_error_aux e argv w Hlen) as [-> _].
    split; [now right | discriminate].
Qed.

Lemma str_lstrip_only (chars a s : string) :
  only_chars chars a = true -> str_lstrip chars (a +:+ s) = str_lstrip chars s.
Proof.
  unfold only_chars. induction a as [|c a IH]; [reflexivity |].
  cbn [list_ascii_of_string forallb]. intros [Hc Ha]%andb_true_iff.
  change (String c a +:+ s) with (String c (a +:+ s)). cbn [str_lstrip].
  rewrite Hc. now apply IH.
Qed.

Lemma str_rstrip_only (chars a : string) :
  only_chars chars a = true -> str_rstrip chars a = "".
Proof.
  unfold only_chars. induction a as [|c a IH]; [reflexivity |].
  cbn [list_ascii_of_string forallb]. intros [Hc Ha]%andb_true_iff.
  cbn [str_rstrip]. rewrite (IH Ha). now rewrite Hc.
Qed.

Lemma str_rstrip_append (chars s a : string) :
  only_chars chars a = true -> str_rstrip chars (s +:+ a) = str_rstrip chars s.
Proof.
  intros Ha. induction s as [|c s IH].
  - cbn. now apply str_rstrip_only.
  - change (String c s +:+ a) with (String c (s +:+ a)). cbn [str_rstrip].
    now rewrite IH.
Qed.

Lemma str_lstrip_rstrip_append (chars s a : string) :
  only_chars chars a = true ->
  str_rstrip chars (str_lstrip chars (s +:+ a)) = str_rstrip chars (str_lstrip chars s).
Proof.
  intros Ha. induction s as [|c s IH].
  - cbn [append]. change ("" +:+ a) with a.
    assert (H : str_lstrip chars a = "").
    { rewrite <- (append_nil_r a). rewrite str_lstrip_only by exact Ha. reflexivity. }
    now rewrite H.
  - change (String c s +:+ a) with (String c (s +:+ a)). cbn [str_lstrip].
    destruct (in_chars chars c); [exact IH |].
    change (String c (s +:+ a)) with (String c s +:+ a).
    now apply str_rstrip_append.
Qed.

Lemma str_strip_around (before after s : string) :
  only_chars quotes before = true -> only_chars quotes after = true ->
  str_strip quotes (before +:+ s +:+ after) = str_strip quotes s.
Proof.
  intros Hb Ha. unfold str_strip.
  rewrite str_lstrip_only by exact Hb. now apply str_lstrip_rstrip_append.
Qed.

(** *** Programs that do not read their output *)

Lemma blind_ret {A : Type} (a : A) : output_blind (ret a).
Proof. intros lines w. reflexivity. Qed.

Lemma blind_lift {A : Type} (r : result A) : output_blind (lift r).
Proof. intros lines w. unfold lift. now destruct r. Qed.

Lemma blind_sys_exit {A : Type} (code : Z) : output_blind (@sys_exit A code).
Proof. intros lines w. reflexivity. Qed.

Lemma blind_get_files : output_blind get_files.
Proof. intros lines w. reflexivity. Qed.

Lemma blind_put_file (path text : string) : output_blind (put_file path text).
Proof. intros lines w. reflexivity. Qed.

Lemma blind_print (line : string) : output_blind (print line).
Proof.
  intros lines w. unfold print, push_out. cbn. now rewrite app_assoc.
Qed.

Lemma blind_now (e : env) : output_blind (now e).
Proof. intros lines w. reflexivity. Qed.

Lemma blind_post (e : env) (r : request) : output_blind (post e r).
Proof. intros lines w. reflexivity. Qed.

Lemma blind_bind {A B : Type} (p : prog A) (k : A -> prog B) :
  output_blind p -> (forall a, output_blind (k a)) -> output_blind (bind p k).
Proof.
  intros Hp Hk lines w. unfold bind. rewrite Hp.
  destruct (p w) as [[a|ex|code] w']; cbn [fst snd]; [apply Hk | reflexivity | reflexivity].
Qed.

Lemma blind_try_except {A : Type} (p : prog A) (h : exn -> prog A) :
  output_blind p -> (forall ex, output_blind (h ex)) -> output_blind (try_except p h).
Proof.
  intros Hp Hh lines w. unfold try_except. rewrite Hp.
  destruct (p w) as [[a|ex|code] w']; cbn [fst snd]; [reflexivity | apply Hh | reflexivity].
Qed.

Ltac blind :=
  repeat first
    [ apply blind_bind | apply blind_try_except | apply blind_ret | apply blind_lift
    | apply blind_sys_exit | apply blind_get_files | apply blind_put_file
    | apply blind_print | apply blind_now | apply blind_post
    | progress cbv zeta
    | match goal with
      | |- forall _, _ => intro
      end
    | match goal with
      | |- output_blind (match ?x with _ => _ end) => destruct x
      | |- output_blind (if ?x then _ else _) => destruct x
      end ].

Lemma blind_append (entry : pyval) (path : string) :
  output_blind (append_log entry path).
Proof. unfold append_execution_log. blind. Qed.

Lemma blind_load_input (stripped : string) :
  output_blind (load_input json_loads json_error stripped).
Proof. unfold load_input. blind. Qed.

Lemma blind_execute (e : env) (flow_path : string) (input_data : pyval)
    (name execution_id : string) (start_time : Z) :
  output_blind (run_execute e flow_path input_data name execution_id start_time).
Proof.
  unfold execute, run_ollama. cbv zeta.
  blind; apply blind_append.
Qed.

Lemma blind_after_echo (e : env) (flow_path stripped : string) :
  output_blind
    (after_echo json_loads json_error json_dumps isoformat total_seconds
       e flow_path stripped).
Proof.
  unfold after_echo. blind; apply blind_load_input || apply blind_execute.
Qed.

Lemma main_body_after_echo (e : env) (program flow_path input_arg : string) (w : world) :
  exists echo,
    List.length echo = 2%nat /\
    main_body json_loads json_error json_dumps isoformat total_seconds
      e [program; flow_path; input_arg] w =
    after_echo json_loads json_error json_dumps isoformat total_seconds
      e flow_path (str_strip quotes input_arg)
      (push_out (stdout w ++ echo)
         {| files := files w; stdout := []; sent := sent w; ticks := S (ticks w) |}).
Proof.
  eexists [_; _]. split; [reflexivity |].
  unfold main_body, after_echo, try_except, bind, now, print, push_out.
  cbn -[load_input execute String.append str_strip flow_name].
  change (String "'" (String dquote "")) with quotes.
  rewrite app_nil_r, <- app_assoc. reflexivity.
Qed.

(** Quotes around the second argument do not count.  Two runs of the
    runner that differ only by single and double quotes put before and
    after the second argument end with the same exit code, leave the
    same files, send the same requests and, after the two lines that
    echo the command line, print the same output. *)
Theorem quotes_do_not_count (e : env) (program flow_path before after arg : string)
    (w : world) :
  only_chars quotes before = true -> only_chars quotes after = true ->
  let quoted := run_main e [program; flow_path; before +:+ arg +:+ after] w in
  let plain := run_main e [program; flow_path; arg] w in
  fst quoted = fst plain /\
  files (snd quoted) = files (snd plain) /\
  sent (snd quoted) = sent (snd plain) /\
  drop (List.length (stdout w) + 2) (stdout (snd quoted))
  = drop (List.length (stdout w) + 2) (stdout (snd plain)).
Proof.
  intros Hb Ha. cbv zeta. unfold main.
  destruct (main_body_after_echo e program flow_path (before +:+ arg +:+ after) w)
    as (echo1 & Hlen1 & ->).
  destruct (main_body_after_echo e program flow_path arg w) as (echo2 & Hlen2 & ->).
  rewrite (str_strip_around before after arg Hb Ha).
  rewrite !blind_after_echo.
  set (w0 := {| files := files w; stdout := []; sent := sent w; ticks := S (ticks w) |}).
  destruct (after_echo json_loads json_error json_dumps isoformat total_seconds
              e flow_path (str_strip quotes arg) w0) as [[u|ex|code] w'];
    cbn [fst snd push_out files sent stdout];
    (repeat split;
     rewrite !drop_app_length' by (rewrite length_app; lia); reflexivity).
Qed.

End FurtherRunnerProperties.

(** ** Instances of the further properties *)

(** A file whose text decodes to a string, not to a mapping. *)
Lemma decoded_document_outcome_witness :
  exists msg,
    load_workflow RefCodec.loads RefCodec.error_text label_files "flows/label.json"
    = Raise (ValueError msg).
Proof.
  apply (decoded_document_outcome RefCodec.loads RefCodec.error_text label_files
           "flows/label.json" (RefCodec.dumps None (PStr "label")) (PStr "label"));
    vm_compute; reflexivity.
Defined.

Lemma loaded_flow_is_accepted_witness :
  extract_prompt say_flow say_hi <> Raise invalid_flow_error /\
  exists nodes, workflow_nodes say_flow = Some (PList nodes) /\
                node_count say_flow = Ok (Z.of_nat (List.length nodes)).
Proof.
  apply (loaded_flow_is_accepted RefCodec.loads RefCodec.error_text sample_files
           "flows/say.json").
  vm_compute. reflexivity.
Defined.

Lemma append_touches_one_file_witness :
  files (snd (append_execution_log RefCodec.loads RefCodec.dumps
                (sample_record "Success" (PStr "hi there") "") ledger_path sample_world))
    !! "notes.txt"
  = sample_files !! "notes.txt".
Proof.
  apply (proj1 (append_touches_one_file RefCodec.loads RefCodec.dumps
                  (sample_record "Success" (PStr "hi there") "") ledger_path sample_world)).
  discriminate.
Defined.

Lemma append_to_ledger_that_is_no_array_witness :
  append_execution_log RefCodec.loads RefCodec.dumps
    (sample_record "Success" (PStr "hi there") "") ledger_path object_ledger_world
  = (Threw (AttributeError "dict" "append"), object_ledger_world).
Proof.
  apply (append_to_ledger_that_is_no_array RefCodec.loads RefCodec.dumps
           _ ledger_path "{}" (PDict [])); vm_compute; reflexivity.
Defined.

Lemma appends_accumulate_witness :
  let entries := [sample_record "Success" (PStr "hi there") "";
                  sample_record "Error" (PStr "") "boom"] in
  let res := run_each
               (fun entry => append_execution_log RefCodec.loads RefCodec.dumps entry
                               ledger_path)
               entries sample_world in
  fst res = Returned tt /\
  ledger_rows RefCodec.loads (files (snd res)) ledger_path = Some ([] ++ entries).
Proof.
  apply (appends_accumulate RefCodec.loads RefCodec.dumps ledger_path
           [sample_record "Success" (PStr "hi there") "";
            sample_record "Error" (PStr "") "boom"] [] sample_world).
  - vm_compute. reflexivity.
  - intros _. vm_compute. reflexivity.
  - intros [|[|k]]; vm_compute; reflexivity.
Defined.

Lemma usage_error_witness :
  let res := main RefCodec.loads RefCodec.error_text RefCodec.dumps
               sample_isoformat sample_total_seconds
               (sample_env (TransportFailure "unused")) ["run_flow.py"; "flows/say.json"]
               sample_world in
  fst res = 1 /\ files (snd res) = sample_files /\ sent (snd res) = [] /\
  last (stdout (snd res)) =
    Some ("ERROR: Incorrect number of arguments. Received: "
          +:+ py_repr (PList (map PStr ["run_flow.py"; "flows/say.json"]))).
Proof.
  apply (usage_error RefCodec.loads RefCodec.error_text RefCodec.dumps
           sample_isoformat sample_total_seconds
           (sample_env (TransportFailure "unused")) ["run_flow.py"; "flows/say.json"]
           sample_world).
  cbn. lia.
Defined.

Lemma unreadable_payload_witness :
  let res := main RefCodec.loads RefCodec.error_text RefCodec.dumps
               sample_isoformat sample_total_seconds
               (sample_env (TransportFailure "unused"))
               ["run_flow.py"; "flows/say.json"; "notes.txt"] sample_world in
  fst res = 1 /\ files (snd res) = sample_files /\ sent (snd res) = [].
Proof.
  apply (unreadable_payload RefCodec.loads RefCodec.error_text RefCodec.dumps
           sample_isoformat sample_total_seconds
           (sample_env (TransportFailure "unused")) "run_flow.py" "flows/say.json"
           "notes.txt" sample_world).
  vm_compute. reflexivity.
Defined.

Lemma ledger_that_is_no_array_witness :
  let res := main RefCodec.loads RefCodec.error_text RefCodec.dumps
               sample_isoformat sample_total_seconds
               (sample_env (Responded 200 "n/a" (inl (PDict [("response", PStr "hi there")]))))
               sample_argv object_ledger_world in
  fst res = 1 /\ files (snd res) = files object_ledger_world /\
  last (stdout (snd res)) =
    Some ("ERROR: Unexpected error in main: "
          +:+ exn_str (AttributeError (type_name (PDict [])) "append")).
Proof.
  apply (ledger_that_is_no_array RefCodec.loads RefCodec.error_text RefCodec.dumps
           sample_isoformat sample_total_seconds
           (sample_env (Responded 200 "n/a" (inl (PDict [("response", PStr "hi there")]))))
           "run_flow.py" "flows/say.json" say_hi_argument object_ledger_world say_hi "{}");
    vm_compute; reflexivity.
Defined.

Lemma request_follows_resolution_witness :
  sent (snd (sample_main (TransportFailure "Connection refused")))
  = [] ++ [{| req_url := "http://ollama:11434/api/generate";
              req_json := PDict [("model", PStr "tinyllama"); ("prompt", PStr "Say hi");
                                 ("stream", PBool false)];
              req_timeout := 60 |}].
Proof.
  apply (request_follows_resolution RefCodec.loads RefCodec.error_text RefCodec.dumps
           sample_isoformat sample_total_seconds
           (sample_env (TransportFailure "Connection refused"))
           "run_flow.py" "flows/say.json" say_hi_argument sample_world say_hi).
  vm_compute. reflexivity.
Defined.

Lemma exit_codes_witness :
  fst (sample_main (TransportFailure "Connection refused")) = 0 \/
  fst (sample_main (TransportFailure "Connection refused")) = 1.
Proof.
  apply (proj1 (exit_codes RefCodec.loads RefCodec.error_text RefCodec.dumps
                  sample_isoformat sample_total_seconds
                  (sample_env (TransportFailure "Connection refused"))
                  sample_argv sample_world)).
Defined.

Lemma quotes_do_not_count_witness :
  let quoted := sample_main (Responded 200 "n/a" (inl (PDict [("response", PStr "hi there")]))) in
  let plain :=
    main RefCodec.loads RefCodec.error_text RefCodec.dumps
      sample_isoformat sample_total_seconds
      (sample_env (Responded 200 "n/a" (inl (PDict [("response", PStr "hi there")]))))
      ["run_flow.py"; "flows/say.json"; RefCodec.dumps None say_hi] sample_world in
  fst quoted = fst plain /\
  files (snd quoted) = files (snd plain) /\
  sent (snd quoted) = sent (snd plain) /\
  drop (List.length (stdout sample_world) + 2) (stdout (snd quoted))
  = drop (List.length (stdout sample_world) + 2) (stdout (snd plain)).
Proof.
  apply (quotes_do_not_count RefCodec.loads RefCodec.error_text RefCodec.dumps
           sample_isoformat sample_total_seconds
           (sample_env (Responded 200 "n/a" (inl (PDict [("response", PStr "hi there")]))))
           "run_flow.py" "flows/say.json" "'" "'" (RefCodec.dumps None say_hi) sample_world);
    reflexivity.
Defined.
